(** * LivePresenter: the page-state store, the tool adapter and the
      transcript manager

    A shallow embedding of [modules/state-manager.js] (class StateManager),
    of the navigation controller, of the client tools module
    ([registerClientTools]) and of the transcript manager
    ([TranscriptManager]) with the chat panel's [addMessage], followed by
    the properties of the specification that concern them. *)

From Stdlib Require Import ZArith NArith Ascii String Decimal DecimalPos DecimalNat.
From stdpp Require Import base option list gmap.

(** ** JavaScript data *)

(** A JavaScript string is a sequence of UTF-16 code units. *)
Definition code_unit := N.
Abbreviation jsstring := (list N).

(** The code units of an ASCII literal. *)
Definition u (s : string) : jsstring :=
  List.map N_of_ascii (list_ascii_of_string s).

(** A JavaScript number that is NaN, an infinity or an integer. Integers
    are mathematical ones; JavaScript's agree with them on the safe range,
    up to 2^53 - 1, in which page numbers live. Finite numbers with a
    fractional part are not represented: the store only tests them with
    [Number.isInteger], and printing them is a matter of floating point.
    [Int 0] stands for both zeros. Above 2^53 the Number values are the
    integers that [to_double] below leaves as they are; the arithmetic
    and [parseInt] return such values only. *)
Inductive number : Type :=
| NaN
| Infinity (negative : bool)
| Int (z : Z).

Set Warnings "-register-all".

(** Values: primitives, arrays and plain data objects (own properties in
    order; the first entry of a name is the property). *)
Inductive JsVal : Type :=
| VUndefined
| VNull
| VBool (b : bool)
| VNum (n : number)
| VStr (s : jsstring)
| VArr (elems : list JsVal)
| VObj (props : list (jsstring * JsVal)).

(** What the program throws: [new Error(message)], and the engine's
    TypeError for a property read on [null] or [undefined]. *)
Inductive exn : Type :=
| Error (message : jsstring)
| TypeError.

Inductive completion (A : Type) : Type :=
| Return (a : A)
| Throw (e : exn).
Arguments Return {A} a.
Arguments Throw {A} e.

Definition bind {A B} (c : completion A) (k : A -> completion B) : completion B :=
  match c with
  | Return a => k a
  | Throw e => Throw e
  end.

Notation "'let!' x ':=' c 'in' k" := (bind c (fun x => k))
  (at level 10, x name, c at level 100, k at level 200).

(** *** Numbers *)

(** [a < b] on numbers. *)
Definition num_lt (a b : number) : bool :=
  match a, b with
  | NaN, _ | _, NaN => false
  | Int x, Int y => (x <? y)%Z
  | Infinity true, Infinity true => false
  | Infinity true, _ => true
  | _, Infinity true => false
  | Infinity false, _ => false
  | Int _, Infinity false => true
  end.

(** [a > b] is [b < a]. *)
Definition num_gt (a b : number) : bool := num_lt b a.

(** [a <= b] on numbers. *)
Definition num_le (a b : number) : bool :=
  match a, b with
  | NaN, _ | _, NaN => false
  | _, _ => negb (num_lt b a)
  end.

(** [a === b] on numbers. *)
Definition num_eq (a b : number) : bool :=
  match a, b with
  | Int x, Int y => (x =? y)%Z
  | Infinity s, Infinity t => Bool.eqb s t
  | _, _ => false
  end.

(** The global [isNaN] on a number. *)
Definition isNaN (n : number) : bool :=
  match n with NaN => true | _ => false end.

(** [Number.isInteger(v)]: [v] is a number and integral. *)
Definition Number_isInteger (v : JsVal) : bool :=
  match v with VNum (Int _) => true | _ => false end.

(** The Number value for the integer [z]: [z] itself when it fits the 53
    bits of a significand; otherwise the nearest integer with a 53-bit
    significand, a tie going to the even significand, and an infinity
    when that is 2^1024 or more. *)
Definition to_double (z : Z) : number :=
  let a := Z.abs z in
  if (a <? 2 ^ 53)%Z then Int z
  else
    let e := (Z.log2 a - 52)%Z in
    let q := (a / 2 ^ e)%Z in
    let r := (a mod 2 ^ e)%Z in
    let half := (2 ^ (e - 1))%Z in
    let q := if (r <? half)%Z || ((r =? half)%Z && Z.even q) then q else (q + 1)%Z in
    let m := (q * 2 ^ e)%Z in
    if (2 ^ 1024 <=? m)%Z then Infinity (z <? 0)%Z else Int (Z.sgn z * m).

(** [a + b] on numbers: the exact sum, rounded. *)
Definition num_add (a b : number) : number :=
  match a, b with
  | NaN, _ | _, NaN => NaN
  | Int x, Int y => to_double (x + y)
  | Infinity s, Infinity t => if Bool.eqb s t then Infinity s else NaN
  | Infinity s, Int _ => Infinity s
  | Int _, Infinity t => Infinity t
  end.

(** [a - b] on numbers: the exact difference, rounded. *)
Definition num_sub (a b : number) : number :=
  match a, b with
  | NaN, _ | _, NaN => NaN
  | Int x, Int y => to_double (x - y)
  | Infinity s, Infinity t => if Bool.eqb s t then NaN else Infinity s
  | Infinity s, Int _ => Infinity s
  | Int _, Infinity t => Infinity (negb t)
  end.

(** *** Strings *)

Definition str_eqb (a b : jsstring) : bool := bool_decide (a = b).

(** [v === "literal"]. *)
Definition is_str (v : JsVal) (lit : jsstring) : bool :=
  match v with VStr s => str_eqb s lit | _ => false end.

Fixpoint digits_of_uint (d : Decimal.uint) : jsstring :=
  match d with
  | Nil => []
  | D0 d => 48%N :: digits_of_uint d
  | D1 d => 49%N :: digits_of_uint d
  | D2 d => 50%N :: digits_of_uint d
  | D3 d => 51%N :: digits_of_uint d
  | D4 d => 52%N :: digits_of_uint d
  | D5 d => 53%N :: digits_of_uint d
  | D6 d => 54%N :: digits_of_uint d
  | D7 d => 55%N :: digits_of_uint d
  | D8 d => 56%N :: digits_of_uint d
  | D9 d => 57%N :: digits_of_uint d
  end.

Fixpoint drop_zeros (s : jsstring) : jsstring :=
  match s with
  | 48%N :: rest => drop_zeros rest
  | _ => s
  end.

(** Exponent notation for the decimal [digits] of an integer: the first
    digit, then a point and the digits up to the last one that is not 0
    if there are any, then [e+] and the number of digits after the
    first. *)
Definition exponent_form (digits : jsstring) : jsstring :=
  let exponent := u "e+" ++ digits_of_uint (Nat.to_uint (length digits - 1)) in
  match rev (drop_zeros (rev digits)) with
  | [] => digits
  | [d] => d :: exponent
  | d :: rest => d :: 46%N :: rest ++ exponent
  end.

(** Number::toString on a positive integer, with all the digits of the
    integer: in plain decimal below 10^21, in exponent notation from
    10^21 on. *)
Definition print_positive (p : positive) : jsstring :=
  let digits := digits_of_uint (Pos.to_uint p) in
  if (Zpos p <? 10 ^ 21)%Z then digits else exponent_form digits.

(** [String(n)]. An integer prints with all its digits. That is what
    JavaScript prints up to 2^53, and above it for the numbers whose
    shortest digits are all their digits (10^21, which prints as
    [1e+21], is one); for the other numbers above 2^53 JavaScript stops
    at the digits that tell the number from its neighbours. Below 10^21
    either print reads back, with [parseInt], as the number printed. *)
Definition Number_toString (n : number) : jsstring :=
  match n with
  | NaN => u "NaN"
  | Infinity false => u "Infinity"
  | Infinity true => u "-Infinity"
  | Int Z0 => u "0"
  | Int (Zpos p) => print_positive p
  | Int (Zneg p) => 45%N :: print_positive p
  end.

(** [String(v)]. An array joins its elements with commas ([undefined] and
    [null] elements print as nothing); a plain object prints through
    Object.prototype.toString. *)
Fixpoint ToString (v : JsVal) : jsstring :=
  match v with
  | VUndefined => u "undefined"
  | VNull => u "null"
  | VBool true => u "true"
  | VBool false => u "false"
  | VNum n => Number_toString n
  | VStr s => s
  | VArr elems =>
      (fix join (l : list JsVal) : jsstring :=
         match l with
         | [] => []
         | x :: rest =>
             let sx := match x with
                       | VUndefined | VNull => []
                       | _ => ToString x
                       end in
             match rest with
             | [] => sx
             | _ => sx ++ 44%N :: join rest
             end
         end) elems
  | VObj _ => u "[object Object]"
  end.

(** [elems.join(separator)]: [undefined] and [null] elements print as
    nothing. *)
Fixpoint Array_join (separator : jsstring) (elems : list JsVal) : jsstring :=
  match elems with
  | [] => []
  | x :: rest =>
      let sx := match x with
                | VUndefined | VNull => []
                | _ => ToString x
                end in
      match rest with
      | [] => sx
      | _ => sx ++ separator ++ Array_join separator rest
      end
  end.

(** *** Operators *)

(** [typeof v]. *)
Definition typeof (v : JsVal) : jsstring :=
  match v with
  | VUndefined => u "undefined"
  | VNull => u "object"
  | VBool _ => u "boolean"
  | VNum _ => u "number"
  | VStr _ => u "string"
  | VArr _ | VObj _ => u "object"
  end.

(** ToBoolean, as applied by [!v], [v && ...] and [if (v)]. *)
Definition truthy (v : JsVal) : bool :=
  match v with
  | VUndefined | VNull => false
  | VBool b => b
  | VNum NaN => false
  | VNum (Int z) => negb (z =? 0)%Z
  | VNum (Infinity _) => true
  | VStr s => negb (bool_decide (s = []))
  | VArr _ | VObj _ => true
  end.

Fixpoint lookup_prop (props : list (jsstring * JsVal)) (name : jsstring) : JsVal :=
  match props with
  | [] => VUndefined
  | (k, v) :: rest => if str_eqb k name then v else lookup_prop rest name
  end.

(** [v.name], for a name that no built-in prototype defines (every name
    the program reads is one): a TypeError on [null] and [undefined], the
    own property of an object, [undefined] on anything else. *)
Definition Get (v : JsVal) (name : jsstring) : completion JsVal :=
  match v with
  | VUndefined | VNull => Throw TypeError
  | VObj props => Return (lookup_prop props name)
  | _ => Return VUndefined
  end.

(** StrWhiteSpaceChar: the WhiteSpace and LineTerminator code units that
    [String.prototype.trim] and [parseInt] strip. *)
Definition is_whitespace (c : code_unit) : bool :=
  match c with
  | 9 | 10 | 11 | 12 | 13 | 32 | 160 | 5760
  | 8192 | 8193 | 8194 | 8195 | 8196 | 8197 | 8198 | 8199 | 8200 | 8201 | 8202
  | 8232 | 8233 | 8239 | 8287 | 12288 | 65279 => true
  | _ => false
  end%N.

Fixpoint trim_start (s : jsstring) : jsstring :=
  match s with
  | c :: rest => if is_whitespace c then trim_start rest else s
  | [] => []
  end.

Definition trim_end (s : jsstring) : jsstring := rev (trim_start (rev s)).

(** [s.trim()]. *)
Definition trim (s : jsstring) : jsstring := trim_end (trim_start s).

(** The value of a digit or letter as a digit of some radix. *)
Definition digit_value (c : code_unit) : option Z :=
  if ((48 <=? c) && (c <=? 57))%N then Some (Z.of_N c - 48)%Z
  else if ((97 <=? c) && (c <=? 122))%N then Some (Z.of_N c - 87)%Z
  else if ((65 <=? c) && (c <=? 90))%N then Some (Z.of_N c - 55)%Z
  else None.

(** The longest prefix of radix-[R] digits, read most significant first;
    [acc] is [None] until a digit has been read. *)
Fixpoint parse_digits (R : Z) (s : jsstring) (acc : option Z) : option Z :=
  match s with
  | [] => acc
  | c :: rest =>
      match digit_value c with
      | Some d =>
          if (d <? R)%Z
          then parse_digits R rest (Some (default 0%Z acc * R + d)%Z)
          else acc
      | None => acc
      end
  end.

(** [parseInt(v)] with no radix: the string of [v] without leading white
    space, an optional sign, an optional [0x]/[0X] prefix selecting radix
    16 (radix 10 otherwise), then the longest run of digits; NaN when
    there is no digit. The result is the Number value for the integer
    read. *)
Definition parseInt (v : JsVal) : number :=
  let str := trim_start (ToString v) in
  let '(sign, str) :=
    match str with
    | 45%N :: rest => ((-1)%Z, rest)
    | 43%N :: rest => (1%Z, rest)
    | _ => (1%Z, str)
    end in
  let '(R, str) :=
    match str with
    | 48%N :: 120%N :: rest | 48%N :: 88%N :: rest => (16%Z, rest)
    | _ => (10%Z, str)
    end in
  match parse_digits R str None with
  | None => NaN
  | Some mathInt => to_double (sign * mathInt)
  end.

(** ** The page-state store (modules/state-manager.js) *)

(** A function value registered as a listener: its reference, which is
    its identity in the listener [Set], and what a call [callback(data)]
    does while the store shows page [page]: return ([None]) or throw a
    value. Listeners here do not call back into the store. *)
Record callback : Type := {
  fn_ref : nat;
  fn_body : JsVal -> number -> option JsVal
}.

(** An argument in callback position. *)
Inductive handler : Type :=
| NotCallable (v : JsVal)
| Callable (cb : callback).

(** What a call of the store does to the outside: a listener is called
    (with the event data, the store showing [page] at that moment), or
    [console.error] reports a caught error. *)
Inductive effect : Type :=
| Invoke (ref : nat) (data : JsVal) (page : number)
| ConsoleError (error : JsVal).

Module StateManager.

Record t : Type := {
  _totalPages : number;
  _currentPage : number;
  _listeners : gmap jsstring (list callback)
}.

(** [new StateManager(totalPages)]; [None] is a call without the
    argument. The parameter is documented as a number. *)
Definition constructor (totalPages : option number) : completion t :=
  match totalPages with
  | None => Throw (Error (u "totalPages must be a positive number"))
  | Some n =>
      if negb (truthy (VNum n)) || num_lt n (Int 1)
      then Throw (Error (u "totalPages must be a positive number"))
      else Return {| _totalPages := n; _currentPage := Int 1; _listeners := ∅ |}
  end.

Definition getCurrentPage (this : t) : number := _currentPage this.

Definition getTotalPages (this : t) : number := _totalPages this.

Definition canGoNext (this : t) : bool :=
  num_lt (_currentPage this) (_totalPages this).

Definition canGoPrevious (this : t) : bool :=
  num_gt (_currentPage this) (Int 1).

(** [listeners.forEach(callback => { try { callback(data) } catch ... })]
    over the [Set], in insertion order. *)
Definition forEach_listener (this : t) (data : JsVal) (listeners : list callback)
  : list effect :=
  flat_map
    (fun cb =>
       Invoke (fn_ref cb) data (_currentPage this)
       :: match fn_body cb data (_currentPage this) with
          | Some error => [ConsoleError error]
          | None => []
          end)
    listeners.

Definition _emit (this : t) (eventType : jsstring) (data : JsVal) : list effect :=
  match _listeners this !! eventType with
  | Some listeners => forEach_listener this data listeners
  | None => []
  end.

(** The event object built by [setCurrentPage]. *)
Definition pageChanged_data (currentPage previousPage totalPages : number) : JsVal :=
  VObj [(u "currentPage", VNum currentPage);
        (u "previousPage", VNum previousPage);
        (u "totalPages", VNum totalPages)].

(** [setCurrentPage(pageNum)]: the returned boolean, the store after the
    call and the effects of the call. *)
Definition setCurrentPage (this : t) (pageNum : JsVal) : bool * t * list effect :=
  match pageNum with
  | VNum n =>
      if negb (Number_isInteger pageNum) || num_lt n (Int 1)
         || num_gt n (_totalPages this)
      then (false, this, [])
      else if num_eq n (_currentPage this)
      then (false, this, [])
      else
        let previousPage := _currentPage this in
        let this' := {| _totalPages := _totalPages this;
                        _currentPage := n;
                        _listeners := _listeners this |} in
        (true, this',
         _emit this' (u "pageChanged")
           (pageChanged_data (_currentPage this') previousPage (_totalPages this')))
  | _ => (* Number.isInteger is false on what is not a number *)
      (false, this, [])
  end.

(** [Set.prototype.add] and [delete], on function references. *)
Definition Set_has (set : list callback) (cb : callback) : bool :=
  existsb (fun x => Nat.eqb (fn_ref x) (fn_ref cb)) set.

Definition Set_add (set : list callback) (cb : callback) : list callback :=
  if Set_has set cb then set else set ++ [cb].

Definition Set_delete (set : list callback) (cb : callback) : list callback :=
  List.filter (fun x => negb (Nat.eqb (fn_ref x) (fn_ref cb))) set.

Definition addEventListener (this : t) (eventType : jsstring) (callback : handler)
  : completion t :=
  match callback with
  | NotCallable _ => Throw (Error (u "Callback must be a function"))
  | Callable cb =>
      let listeners :=
        match _listeners this !! eventType with
        | Some set => _listeners this
        | None => <[eventType := []]> (_listeners this)
        end in
      let set := default [] (listeners !! eventType) in
      Return {| _totalPages := _totalPages this;
                _currentPage := _currentPage this;
                _listeners := <[eventType := Set_add set cb]> listeners |}
  end.

Definition removeEventListener (this : t) (eventType : jsstring) (callback : handler)
  : t :=
  match _listeners this !! eventType with
  | Some set =>
      match callback with
      | Callable cb =>
          {| _totalPages := _totalPages this;
             _currentPage := _currentPage this;
             _listeners := <[eventType := Set_delete set cb]> (_listeners this) |}
      | NotCallable _ => this
      end
  | None => this
  end.

End StateManager.

(** ** The PDF renderer: text extraction *)

(** What [getPage(n)] followed by [getTextContent()] yields on a PDF.js
    document: the [str] of the text items, or the value one of the two
    promises is rejected with. *)
Inductive text_outcome : Type :=
| Items (strs : list JsVal)
| Rejected (error : JsVal).

(** A loaded PDF.js document, as text extraction sees it. *)
Record PDFDocument : Type := {
  numPages : number;
  getTextContent : number -> text_outcome
}.

Module PDFRenderer.

(** [getPageText(pageNumber)] on a renderer whose [pdfDocument] is
    [None] before [loadPDF] has succeeded. *)
Definition getPageText (pdfDocument : option PDFDocument) (pageNumber : number)
  : completion jsstring :=
  match pdfDocument with
  | None => Throw (Error (u "PDF not loaded"))
  | Some document =>
      if num_lt pageNumber (Int 1) || num_gt pageNumber (numPages document)
      then Throw (Error (u "Invalid page number: " ++ Number_toString pageNumber))
      else
        match getTextContent document pageNumber with
        | Items strs => Return (trim (Array_join (u " ") strs))
        | Rejected error =>
            let! m := Get error (u "message") in
            Throw (Error (u "Failed to extract text: " ++ ToString m))
        end
  end.

End PDFRenderer.

(** ** The navigation controller *)

Module NavigationController.

(** [goToPage(pageNum)] hands the page to the store and returns what the
    store returns. *)
Definition goToPage (stateManager : StateManager.t) (pageNum : JsVal)
  : bool * StateManager.t * list effect :=
  let '(changed, stateManager', effects) :=
    StateManager.setCurrentPage stateManager pageNum in
  if negb changed then (false, stateManager', effects)
  else (true, stateManager', effects).

Definition getCurrentPage (stateManager : StateManager.t) : number :=
  StateManager.getCurrentPage stateManager.

Definition getTotalPages (stateManager : StateManager.t) : number :=
  StateManager.getTotalPages stateManager.

Definition nextPage (stateManager : StateManager.t)
  : bool * StateManager.t * list effect :=
  if negb (StateManager.canGoNext stateManager) then (false, stateManager, [])
  else
    let nextPageNum := num_add (StateManager.getCurrentPage stateManager) (Int 1) in
    goToPage stateManager (VNum nextPageNum).

Definition previousPage (stateManager : StateManager.t)
  : bool * StateManager.t * list effect :=
  if negb (StateManager.canGoPrevious stateManager) then (false, stateManager, [])
  else
    let prevPageNum := num_sub (StateManager.getCurrentPage stateManager) (Int 1) in
    goToPage stateManager (VNum prevPageNum).

(** [getPageText()], with the renderer's document. *)
Definition getPageText (stateManager : StateManager.t)
    (pdfDocument : option PDFDocument) : completion jsstring :=
  let currentPage := StateManager.getCurrentPage stateManager in
  PDFRenderer.getPageText pdfDocument currentPage.

End NavigationController.

(** ** The client tools *)

Record ToolResult : Type := {
  success : bool;
  message : jsstring;
  currentPage : number;
  totalPages : number
}.

(** The result of the [getPageText] tool: [{success: true, pageNumber,
    text, message, characterCount}], or [{success: false, message, error}]
    where [error] is the message of the error caught. *)
Inductive PageTextResult : Type :=
| PageText (pageNumber : number) (text message : jsstring) (characterCount : number)
| PageTextFailure (message : jsstring) (error : exn).

Module ClientTools.

(** The [goToPage] tool installed by [registerClientTools]: the value the
    returned promise resolves to ([Return]) or is rejected with
    ([Throw]), the store afterwards and the effects. *)
Definition goToPage (stateManager : StateManager.t) (params : JsVal)
  : completion ToolResult * StateManager.t * list effect :=
  let pageNum :=
    if str_eqb (typeof params) (u "object")
    then Get params (u "pageNumber")
    else Return params in
  match pageNum with
  | Throw e => (Throw e, stateManager, [])
  | Return pageNum =>
      let pageNumber := parseInt pageNum in
      let total := NavigationController.getTotalPages stateManager in
      if isNaN pageNumber || num_lt pageNumber (Int 1) || num_gt pageNumber total
      then
        (Return {| success := false;
                   message := u "Invalid page number. Must be between 1 and "
                              ++ Number_toString total;
                   currentPage := NavigationController.getCurrentPage stateManager;
                   totalPages := total |},
         stateManager, [])
      else
        let '(success, stateManager', effects) :=
          NavigationController.goToPage stateManager (VNum pageNumber) in
        if success
        then
          (Return {| success := true;
                     message := u "Jumped to page " ++ Number_toString pageNumber
                                ++ u " of " ++ Number_toString total;
                     currentPage := pageNumber;
                     totalPages := total |},
           stateManager', effects)
        else
          (Return {| success := false;
                     message := u "Failed to navigate to page "
                                ++ Number_toString pageNumber;
                     currentPage := NavigationController.getCurrentPage stateManager';
                     totalPages := total |},
           stateManager', effects)
  end.

(** The [nextPage] tool. *)
Definition nextPage (stateManager : StateManager.t)
  : ToolResult * StateManager.t * list effect :=
  let '(success, stateManager', effects) :=
    NavigationController.nextPage stateManager in
  let current := NavigationController.getCurrentPage stateManager' in
  let total := NavigationController.getTotalPages stateManager' in
  if success
  then ({| success := true;
           message := u "Moved to page " ++ Number_toString current
                      ++ u " of " ++ Number_toString total;
           currentPage := current;
           totalPages := total |},
        stateManager', effects)
  else ({| success := false;
           message := u "Already on last page (" ++ Number_toString total ++ u ")";
           currentPage := current;
           totalPages := total |},
        stateManager', effects).

(** The [previousPage] tool. *)
Definition previousPage (stateManager : StateManager.t)
  : ToolResult * StateManager.t * list effect :=
  let '(success, stateManager', effects) :=
    NavigationController.previousPage stateManager in
  let current := NavigationController.getCurrentPage stateManager' in
  let total := NavigationController.getTotalPages stateManager' in
  if success
  then ({| success := true;
           message := u "Moved to page " ++ Number_toString current
                      ++ u " of " ++ Number_toString total;
           currentPage := current;
           totalPages := total |},
        stateManager', effects)
  else ({| success := false;
           message := u "Already on first page";
           currentPage := current;
           totalPages := total |},
        stateManager', effects).

(** The [getPageText] tool, with the renderer's document. *)
Definition getPageText (stateManager : StateManager.t)
    (pdfDocument : option PDFDocument) : PageTextResult :=
  let current := NavigationController.getCurrentPage stateManager in
  match NavigationController.getPageText stateManager pdfDocument with
  | Return text =>
      PageText current text
        (u "Retrieved text from page " ++ Number_toString current)
        (Int (Z.of_nat (length text)))
  | Throw error =>
      PageTextFailure
        (u "Failed to retrieve text from page " ++ Number_toString current)
        error
  end.

End ClientTools.

(** ** The manual API (modules/api-controller.js) *)

Module APIController.

Record t : Type := {
  exposed : bool
}.

(** [expose()] and [cleanup()], with [window.pdfController] present or
    not. *)
Definition expose (this : t) (window_pdfController : bool) : t * bool :=
  if exposed this then (this, window_pdfController)
  else ({| exposed := true |}, true).

Definition cleanup (this : t) (window_pdfController : bool) : t * bool :=
  if window_pdfController then ({| exposed := false |}, false)
  else (this, window_pdfController).

(** [window.pdfController.goToPage(pageNum)]. *)
Definition goToPage (stateManager : StateManager.t) (pageNum : JsVal)
  : bool * StateManager.t * list effect :=
  NavigationController.goToPage stateManager pageNum.

End APIController.

(** ** The slide sidebar *)

Module SlideSidebar.

(** An entry of [SLIDE_TITLES]. *)
Record slide : Type := {
  page : number;
  title : jsstring
}.

Record t : Type := {
  isOpen : bool;
  hideTimeout : option nat
}.

Definition open (this : t) : t :=
  {| isOpen := true; hideTimeout := None |}.

Definition close (this : t) : t :=
  {| isOpen := false; hideTimeout := hideTimeout this |}.

Definition toggle (this : t) : t :=
  if isOpen this then close this else open this.

(** The [data-page] attribute that [_generateSlideList] writes for an
    entry. *)
Definition data_page (entry : slide) : jsstring := Number_toString (page entry).

(** A click on the link of an entry: the sidebar, the store and the
    effects afterwards. *)
Definition click (this : t) (stateManager : StateManager.t) (entry : slide)
  : t * StateManager.t * list effect :=
  let pageNum := parseInt (VStr (data_page entry)) in
  let '(_, stateManager', effects) :=
    NavigationController.goToPage stateManager (VNum pageNum) in
  (close this, stateManager', effects).

(** [_updateActiveSlide()]: the entry that ends up with the class
    [active], the first one whose [data-page] is the current page. *)
Definition _updateActiveSlide (slides : list slide) (stateManager : StateManager.t)
  : option slide :=
  let currentPage := StateManager.getCurrentPage stateManager in
  List.find (fun entry => str_eqb (data_page entry) (Number_toString currentPage)) slides.

End SlideSidebar.

(** ** The chat panel and the transcript manager *)

(** A [Date]: [new Date()] at a reading [time] of the host clock, or
    [new Date(v)] for a value [v]. *)
Inductive Date : Type :=
| Date_now (time : N)
| Date_of (v : JsVal).

Module ChatInterface.

(** An element of [_messages]; the panel shows one node per element. *)
Record message : Type := {
  role : jsstring;
  content : jsstring;
  timestamp : Date
}.

Record t : Type := {
  _messages : list message
}.

(** [_escapeHtml]: the text as the [innerHTML] of a node holding it. *)
Definition _escapeHtml (text : jsstring) : jsstring :=
  flat_map
    (fun c =>
       match c with
       | 38%N => u "&amp;"
       | 60%N => u "&lt;"
       | 62%N => u "&gt;"
       | 160%N => u "&nbsp;"
       | _ => [c]
       end)
    text.

Definition validRoles : list jsstring := [u "user"; u "agent"; u "system"].

(** [addMessage(role, content, timestamp)] with a [Date] timestamp. *)
Definition addMessage (this : t) (role : jsstring) (content : jsstring)
  (timestamp : Date) : t :=
  let role := if existsb (str_eqb role) validRoles then role else u "system" in
  let message := {| role := role;
                    content := _escapeHtml content;
                    timestamp := timestamp |} in
  {| _messages := _messages this ++ [message] |}.

Definition clear (this : t) : t := {| _messages := [] |}.

(** [_formatTime(date)]: [None] is a value that is not a [Date] or an
    invalid one, [Some (hours, minutes)] a date with these [getHours()]
    and [getMinutes()]. *)
Definition _formatTime (date : option (Z * Z)) : jsstring :=
  match date with
  | None => []
  | Some (hours, minutes) =>
      let ampm := if (12 <=? hours)%Z then u "PM" else u "AM" in
      let hours := Z.rem hours 12 in
      let hours := if (hours =? 0)%Z then 12%Z else hours in
      let minutesStr :=
        if (minutes <? 10)%Z then u "0" ++ Number_toString (Int minutes)
        else Number_toString (Int minutes) in
      Number_toString (Int hours) ++ u ":" ++ minutesStr ++ u " " ++ ampm
  end.

(** The data of a "chatToggled" event. *)
Definition chatToggled_data (visible : bool) : JsVal :=
  VObj [(u "visible", VBool visible)].

(** [show()], [hide()] and [toggle()] on the panel's [_isVisible], with
    the store given to the constructor if one was: the new [_isVisible]
    and the effects. *)
Definition show (_isVisible : bool) (_stateManager : option StateManager.t)
  : bool * list effect :=
  if _isVisible then (_isVisible, [])
  else
    (true,
     match _stateManager with
     | Some stateManager =>
         StateManager._emit stateManager (u "chatToggled") (chatToggled_data true)
     | None => []
     end).

Definition hide (_isVisible : bool) (_stateManager : option StateManager.t)
  : bool * list effect :=
  if negb _isVisible then (_isVisible, [])
  else
    (false,
     match _stateManager with
     | Some stateManager =>
         StateManager._emit stateManager (u "chatToggled") (chatToggled_data false)
     | None => []
     end).

Definition toggle (_isVisible : bool) (_stateManager : option StateManager.t)
  : bool * list effect :=
  if _isVisible then hide _isVisible _stateManager
  else show _isVisible _stateManager.

End ChatInterface.

(** The remote conversation object: for a method name, the function it
    holds if it holds one; called with a text, the function returns
    ([None]) or throws a value. *)
Record Conversation : Type := {
  method : jsstring -> option (jsstring -> option JsVal)
}.

(** A call made on the conversation object. *)
Inductive remote_call : Type :=
| Call (name : jsstring) (text : jsstring).

Module TranscriptManager.

(** An element of [_history]. *)
Record entry : Type := {
  role : jsstring;
  content : jsstring;
  timestamp : Date
}.

Record t : Type := {
  _chatInterface : ChatInterface.t;
  _conversation : option Conversation;
  _history : list entry
}.

Definition _addToHistory (this : t) (role content : jsstring) (timestamp : Date) : t :=
  {| _chatInterface := _chatInterface this;
     _conversation := _conversation this;
     _history := _history this
                 ++ [{| role := role; content := content; timestamp := timestamp |}] |}.

(** [this._chatInterface.addMessage(role, content, timestamp)]. *)
Definition display (this : t) (role content : jsstring) (timestamp : Date) : t :=
  {| _chatInterface := ChatInterface.addMessage (_chatInterface this) role content timestamp;
     _conversation := _conversation this;
     _history := _history this |}.

Definition _determineRole (message : JsVal) : completion jsstring :=
  let! source := Get message (u "source") in
  let! type := Get message (u "type") in
  if is_str source (u "user") || is_str type (u "user_transcript")
  then Return (u "user")
  else if is_str source (u "ai") || is_str type (u "agent_response")
  then Return (u "agent")
  else
    let! role := Get message (u "role") in
    if is_str role (u "user") then Return (u "user")
    else if is_str role (u "assistant") || is_str role (u "agent")
    then Return (u "agent")
    else Return (u "agent").

(** The test [v && typeof v === 'string'], with the string it lets
    through. *)
Definition nonempty_string (v : JsVal) : option jsstring :=
  if truthy v && str_eqb (typeof v) (u "string")
  then match v with VStr s => Some s | _ => None end
  else None.

(** [_extractContent(message)]: a string, or [None] for [null]. *)
Definition _extractContent (message : JsVal) : completion (option jsstring) :=
  let! m := Get message (u "message") in
  match nonempty_string m with
  | Some s => Return (Some s)
  | None =>
  let! m := Get message (u "text") in
  match nonempty_string m with
  | Some s => Return (Some s)
  | None =>
  let! m := Get message (u "content") in
  match nonempty_string m with
  | Some s => Return (Some s)
  | None =>
  let! m := Get message (u "transcript") in
  match nonempty_string m with
  | Some s => Return (Some s)
  | None =>
      match message with
      | VStr s => Return (Some s)
      | _ => Return None
      end
  end end end end.

(** [_extractTimestamp(message)], the host clock reading [now]. *)
Definition _extractTimestamp (message : JsVal) (now : N) : completion Date :=
  let! timestamp := Get message (u "timestamp") in
  if truthy timestamp then Return (Date_of timestamp)
  else
    let! time := Get message (u "time") in
    if truthy time then Return (Date_of time)
    else Return (Date_now now).

(** [handleVoiceMessage(message)]. *)
Definition handleVoiceMessage (this : t) (message : JsVal) (now : N) : completion t :=
  if negb (truthy message) then Return this
  else
    let! role := _determineRole message in
    let! content := _extractContent message in
    let! timestamp := _extractTimestamp message now in
    match content with
    | None | Some [] => Return this
    | Some content =>
        let this := _addToHistory this role content timestamp in
        Return (display this role content timestamp)
    end.

(** The names probed on the conversation object, in order. *)
Definition send_methods : list jsstring :=
  [u "sendTextMessage"; u "sendMessage"; u "send"; u "sendUserMessage"; u "sendText"].

(** The first probed name that holds a function. *)
Fixpoint probe (conversation : Conversation) (names : list jsstring)
  : option (jsstring * (jsstring -> option JsVal)) :=
  match names with
  | [] => None
  | name :: rest =>
      match method conversation name with
      | Some f => Some (name, f)
      | None => probe conversation rest
      end
  end.

(** [sendTextMessage(text)], run to the settlement of its promise: the
    manager afterwards, the calls made on the conversation object and
    how the promise settles. [now] and [later] are the clock readings of
    the two [new Date()]. *)
Definition sendTextMessage (this : t) (text : JsVal) (now later : N)
  : t * list remote_call * completion unit :=
  if negb (truthy text) || negb (str_eqb (typeof text) (u "string"))
  then (this, [], Return tt)
  else
    match text with
    | VStr text =>
        let trimmedText := trim text in
        match trimmedText with
        | [] => (this, [], Return tt)
        | _ =>
            let timestamp := Date_now now in
            let this := _addToHistory this (u "user") trimmedText timestamp in
            let this := display this (u "user") trimmedText timestamp in
            match _conversation this with
            | None =>
                (display this (u "system") (u "Voice conversation not connected")
                   (Date_now later),
                 [], Return tt)
            | Some conversation =>
                match probe conversation send_methods with
                | Some (name, f) =>
                    match f trimmedText with
                    | None => (this, [Call name trimmedText], Return tt)
                    | Some error =>
                        match Get error (u "message") with
                        | Return m =>
                            (display this (u "system")
                               (u "Error sending message: " ++ ToString m)
                               (Date_now later),
                             [Call name trimmedText], Return tt)
                        | Throw e => (this, [Call name trimmedText], Throw e)
                        end
                    end
                | None =>
                    (display this (u "system")
                       (u "Text input is for display only - voice conversation required for agent interaction")
                       (Date_now later),
                     [], Return tt)
                end
            end
        end
    | _ => (this, [], Return tt)
    end.

Definition getConversationHistory (this : t) : list entry := _history this.



End TranscriptManager.

(** ** The navigation buttons *)

Module UIControls.

(** What [updateUI()] writes: the text of the page counter and the
    [disabled] flags of the two buttons. *)
Record t : Type := {
  pageCounter : jsstring;
  prevButton_disabled : bool;
  nextButton_disabled : bool
}.

Definition updateUI (stateManager : StateManager.t) : t :=
  let currentPage := StateManager.getCurrentPage stateManager in
  let totalPages := StateManager.getTotalPages stateManager in
  {| pageCounter := u "Page " ++ Number_toString currentPage
                    ++ u " of " ++ Number_toString totalPages;
     prevButton_disabled := negb (StateManager.canGoPrevious stateManager);
     nextButton_disabled := negb (StateManager.canGoNext stateManager) |}.

End UIControls.

(** ** The assembly *)

Module Main.

(** The [onSubmit] callback that [initPresentation] gives the chat panel;
    the panel of the callback is the transcript manager's. *)
Definition onSubmit (transcriptManager : TranscriptManager.t) (text : JsVal)
    (now later : N) : TranscriptManager.t * list remote_call * completion unit :=
  match TranscriptManager._conversation transcriptManager with
  | Some _ => TranscriptManager.sendTextMessage transcriptManager text now later
  | None =>
      (TranscriptManager.display transcriptManager (u "system")
         (u "Voice session not active. Please start a voice conversation first.")
         (Date_now now),
       [], Return tt)
  end.


End Main.

(** ** Notions used by the statements *)

(** The stores a program can hold: built by the constructor, then used
    through the public methods. *)
Inductive reachable : StateManager.t -> Prop :=
| reachable_new totalPages this :
    StateManager.constructor totalPages = Return this ->
    reachable this
| reachable_setCurrentPage this pageNum :
    reachable this ->
    reachable (StateManager.setCurrentPage this pageNum).1.2
| reachable_addEventListener this eventType callback this' :
    reachable this ->
    StateManager.addEventListener this eventType callback = Return this' ->
    reachable this'
| reachable_removeEventListener this eventType callback :
    reachable this ->
    reachable (StateManager.removeEventListener this eventType callback).

(** The store after a sequence of [setCurrentPage] calls. *)
Definition setCurrentPage_all (this : StateManager.t) (pageNums : list JsVal)
  : StateManager.t :=
  fold_left (fun this pageNum => (StateManager.setCurrentPage this pageNum).1.2)
    pageNums this.

(** [1 <= currentPage <= totalPages]. *)
Definition page_in_range (this : StateManager.t) : Prop :=
  num_le (Int 1) (StateManager.getCurrentPage this) = true /\
  num_le (StateManager.getCurrentPage this) (StateManager.getTotalPages this) = true.

(** The listeners registered for an event type, in registration order. *)
Definition listeners_of (this : StateManager.t) (eventType : jsstring) : list callback :=
  default [] (StateManager._listeners this !! eventType).

(** The listener calls among the effects: who was called, with what, and
    the page the store showed. *)
Fixpoint invocations (effects : list effect) : list (nat * JsVal * number) :=
  match effects with
  | [] => []
  | Invoke ref data page :: rest => (ref, data, page) :: invocations rest
  | ConsoleError _ :: rest => invocations rest
  end.

(** How often the function [ref] was called. *)
Definition times_invoked (ref : nat) (effects : list effect) : nat :=
  length (List.filter (fun i => Nat.eqb i.1.1 ref) (invocations effects)).

(** What every method of the store maintains: the current page is an
    integer between 1 and the page count, and no listener set holds a
    function twice. *)
Definition well_formed (this : StateManager.t) : Prop :=
  (exists c : Z, StateManager._currentPage this = Int c /\ (1 <= c)%Z /\
                 num_le (Int c) (StateManager._totalPages this) = true) /\
  (forall eventType set,
      StateManager._listeners this !! eventType = Some set ->
      NoDup (List.map fn_ref set)).

(** *** The normalizer, in the specification's words *)

(** The field [name] of an inbound payload; a payload that is not an
    object has no fields. *)
Definition field (payload : JsVal) (name : jsstring) : JsVal :=
  match payload with
  | VObj props => lookup_prop props name
  | _ => VUndefined
  end.

(** Role inference order, first match wins: [source == "user"] or
    [type == "user_transcript"] gives user; [source == "ai"] or
    [type == "agent_response"] gives agent; [role == "user"] gives user;
    [role] in {"assistant", "agent"} gives agent; otherwise agent. *)
Definition role_spec (payload : JsVal) : jsstring :=
  if is_str (field payload (u "source")) (u "user")
     || is_str (field payload (u "type")) (u "user_transcript")
  then u "user"
  else if is_str (field payload (u "source")) (u "ai")
          || is_str (field payload (u "type")) (u "agent_response")
  then u "agent"
  else if is_str (field payload (u "role")) (u "user")
  then u "user"
  else if existsb (is_str (field payload (u "role"))) [u "assistant"; u "agent"]
  then u "agent"
  else u "agent".

(** The first non-empty string among the candidates. *)
Fixpoint first_nonempty_string (candidates : list JsVal) : option jsstring :=
  match candidates with
  | [] => None
  | VStr (c :: s) :: _ => Some (c :: s)
  | _ :: rest => first_nonempty_string rest
  end.

(** Content extraction order, first non-empty string match wins: the
    fields [message], [text], [content], [transcript], then the payload
    itself if it is a string; otherwise null ([None]). *)
Definition content_spec (payload : JsVal) : option jsstring :=
  first_nonempty_string
    [field payload (u "message"); field payload (u "text");
     field payload (u "content"); field payload (u "transcript"); payload].

(** *** Notions for the further properties *)

(** The page value that the [goToPage] tool reads from its argument. *)
Definition page_argument (params : JsVal) : JsVal :=
  match params with
  | VObj props => lookup_prop props (u "pageNumber")
  | VArr _ => VUndefined
  | _ => params
  end.

(** The store turned to page [n]: same page count, same listeners. *)
Definition turned_to (this : StateManager.t) (n : Z) : StateManager.t :=
  {| StateManager._totalPages := StateManager._totalPages this;
     StateManager._currentPage := Int n;
     StateManager._listeners := StateManager._listeners this |}.

(** What an accepted change from the page of [this] to page [n] emits. *)
Definition page_turn_effects (this : StateManager.t) (n : Z) : list effect :=
  StateManager._emit (turned_to this n) (u "pageChanged")
    (StateManager.pageChanged_data (Int n) (StateManager._currentPage this)
       (StateManager._totalPages this)).


(** The text has a code unit that is not white space. *)
Definition has_text (s : jsstring) : bool :=
  existsb (fun c => negb (is_whitespace c)) s.


(** A system notice as displayed. *)
Definition system_notice (content : jsstring) (stamp : Date) : ChatInterface.message :=
  {| ChatInterface.role := u "system";
     ChatInterface.content := ChatInterface._escapeHtml content;
     ChatInterface.timestamp := stamp |}.

(** The message is a system notice. *)
Definition is_notice (m : ChatInterface.message) : Prop :=
  ChatInterface.role m = u "system".

(** The manager after a user text [c] was recorded at [stamp] and shown,
    followed on the display by [notices]. *)
Definition with_user_text (this : TranscriptManager.t) (c : jsstring) (stamp : Date)
    (notices : list ChatInterface.message) : TranscriptManager.t :=
  {| TranscriptManager._chatInterface :=
       {| ChatInterface._messages :=
            ChatInterface._messages (TranscriptManager._chatInterface this)
            ++ {| ChatInterface.role := u "user";
                  ChatInterface.content := ChatInterface._escapeHtml c;
                  ChatInterface.timestamp := stamp |} :: notices |};
     TranscriptManager._conversation := TranscriptManager._conversation this;
     TranscriptManager._history :=
       TranscriptManager._history this
       ++ [{| TranscriptManager.role := u "user";
              TranscriptManager.content := c;
              TranscriptManager.timestamp := stamp |}] |}.

(** The string neither starts nor ends with white space. *)
Definition trimmed (s : jsstring) : Prop :=
  match s with [] => True | c :: _ => is_whitespace c = false end /\
  match rev s with [] => True | c :: _ => is_whitespace c = false end.




(** A controller and [window.pdfController] after a sequence of
    [expose()] ([true]) and [cleanup()] ([false]) calls. *)
Fixpoint api_run (calls : list bool) (this : APIController.t) (window_pdfController : bool)
  : APIController.t * bool :=
  match calls with
  | [] => (this, window_pdfController)
  | true :: rest =>
      let '(this, w) := APIController.expose this window_pdfController in
      api_run rest this w
  | false :: rest =>
      let '(this, w) := APIController.cleanup this window_pdfController in
      api_run rest this w
  end.

(** The number prints with the digits JavaScript prints: it is NaN, an
    infinity, or an integer up to 2^53 in magnitude. *)
Definition exact_digits (n : number) : Prop :=
  match n with
  | Int z => (Z.abs z <= 2 ^ 53)%Z
  | _ => True
  end.

(** Every number that [String(v)] prints is printed with the digits
    JavaScript prints. *)
Fixpoint exactly_printed (v : JsVal) : Prop :=
  match v with
  | VNum n => exact_digits n
  | VArr elems =>
      (fix all (l : list JsVal) : Prop :=
         match l with
         | [] => True
         | x :: rest => exactly_printed x /\ all rest
         end) elems
  | _ => True
  end.

(** The times of day. *)
Definition time_of_day (hours minutes : Z) : Prop :=
  (0 <= hours < 24)%Z /\ (0 <= minutes < 60)%Z.

(** What [_formatTime] can be given: a value that is no valid [Date], or
    a [Date], whose [getHours()] and [getMinutes()] are a time of day. *)
Definition date_reading (date : option (Z * Z)) : Prop :=
  match date with
  | None => True
  | Some (hours, minutes) => time_of_day hours minutes
  end.

(** All of them, in a list. *)
Definition date_readings : list (option (Z * Z)) :=
  None ::
  flat_map (fun h => List.map (fun m => Some (Z.of_nat h, Z.of_nat m)) (seq 0 60))
    (seq 0 24).

(** No two elements of [dates] are printed alike by [_formatTime]. *)
Definition printed_apart (dates : list (option (Z * Z))) : bool :=
  let table := List.map (fun d => (d, ChatInterface._formatTime d)) dates in
  forallb (fun a => forallb (fun b => implb (str_eqb a.2 b.2) (bool_decide (a.1 = b.1)))
                      table)
    table.

(** *** Sample data *)

(** A 10-page deck just opened, with no listener. *)
Definition deck10 : StateManager.t :=
  {| StateManager._totalPages := Int 10;
     StateManager._currentPage := Int 1;
     StateManager._listeners := ∅ |}.

(** A listener that returns, and one that throws the string "boom". *)
Definition quiet (ref : nat) : callback :=
  {| fn_ref := ref; fn_body := fun _ _ => None |}.

Definition faulty (ref : nat) : callback :=
  {| fn_ref := ref; fn_body := fun _ _ => Some (VStr (u "boom")) |}.

(** The store after [addEventListener(eventType, cb)]. *)
Definition subscribe (this : StateManager.t) (eventType : jsstring) (cb : callback)
  : StateManager.t :=
  match StateManager.addEventListener this eventType (Callable cb) with
  | Return this' => this'
  | Throw _ => this
  end.


(** A transcript manager with nothing shown yet, bound to [conversation]. *)
Definition fresh_manager (conversation : option Conversation) : TranscriptManager.t :=
  {| TranscriptManager._chatInterface := {| ChatInterface._messages := [] |};
     TranscriptManager._conversation := conversation;
     TranscriptManager._history := [] |}.

(** A conversation object whose only method is [sendMessage]. *)
Definition plain_conversation : Conversation :=
  {| method := fun name =>
                 if str_eqb name (u "sendMessage") then Some (fun _ => None) else None |}.


(** The deck watched by three "pageChanged" listeners, the second of
    which throws. *)
Definition watched10 : StateManager.t :=
  subscribe (subscribe (subscribe deck10 (u "pageChanged") (quiet 1))
               (u "pageChanged") (faulty 2))
    (u "pageChanged") (quiet 3).

(** * Properties *)

(** ** The page-state store *)

Section StoreFacts.
Import StateManager.

Lemma num_le_Int (a b : Z) : num_le (Int a) (Int b) = true <-> (a <= b)%Z.
Proof.
  unfold num_le, num_lt. rewrite negb_true_iff, Z.ltb_ge. reflexivity.
Qed.

(** A rejected call returns the store it was given and does nothing. *)
Lemma setCurrentPage_false this pageNum :
  (setCurrentPage this pageNum).1.1 = false ->
  setCurrentPage this pageNum = (false, this, []).
Proof.
  unfold setCurrentPage.
  destruct pageNum as [ | |b|n|s|elems|props]; try reflexivity.
  destruct (negb (Number_isInteger (VNum n)) || num_lt n (Int 1)
            || num_gt n (_totalPages this)); [reflexivity|].
  destruct (num_eq n (_currentPage this)); [reflexivity|].
  simpl. discriminate.
Qed.

(** What decides a call: the three tests of the source, on an integer. *)
Lemma setCurrentPage_Int this (n : Z) :
  setCurrentPage this (VNum (Int n)) =
    if (n <? 1)%Z || num_gt (Int n) (_totalPages this)
    then (false, this, [])
    else if num_eq (Int n) (_currentPage this)
    then (false, this, [])
    else
      let this' := {| _totalPages := _totalPages this;
                      _currentPage := Int n;
                      _listeners := _listeners this |} in
      (true, this',
       _emit this' (u "pageChanged")
         (pageChanged_data (Int n) (_currentPage this) (_totalPages this))).
Proof. reflexivity. Qed.

(** An accepted call was given a number that becomes the current page;
    the page count and the listeners stay. *)
Lemma setCurrentPage_true this pageNum this' effects :
  setCurrentPage this pageNum = (true, this', effects) ->
  exists n : Z,
    pageNum = VNum (Int n) /\
    (1 <= n)%Z /\
    num_gt (Int n) (_totalPages this) = false /\
    num_eq (Int n) (_currentPage this) = false /\
    this' = {| _totalPages := _totalPages this;
               _currentPage := Int n;
               _listeners := _listeners this |} /\
    effects = _emit this' (u "pageChanged")
                (pageChanged_data (Int n) (_currentPage this) (_totalPages this)).
Proof.
  destruct pageNum as [ | |b|n|s|elems|props]; try discriminate.
  destruct n as [ |neg|n]; try discriminate.
  rewrite setCurrentPage_Int.
  destruct (n <? 1)%Z eqn:Hlow; [discriminate|]. cbn [orb].
  destruct (num_gt (Int n) (_totalPages this)) eqn:Hhigh; [discriminate|].
  destruct (num_eq (Int n) (_currentPage this)) eqn:Hsame; [discriminate|].
  intros [= <- <-]. exists n.
  apply Z.ltb_ge in Hlow. auto 10.
Qed.

Lemma num_le_not_gt (n : Z) (total : number) :
  total <> NaN ->
  num_gt (Int n) total = false <-> num_le (Int n) total = true.
Proof.
  intros Hnan. unfold num_gt, num_le.
  destruct total as [ |neg|z]; [congruence| |];
    rewrite negb_true_iff; reflexivity.
Qed.

Lemma num_le_not_NaN (a b : number) : num_le a b = true -> b <> NaN.
Proof. destruct a, b; simpl; congruence. Qed.

Lemma constructor_well_formed totalPages this :
  constructor totalPages = Return this -> well_formed this.
Proof.
  unfold constructor. destruct totalPages as [n|]; [|discriminate].
  destruct (negb (truthy (VNum n)) || num_lt n (Int 1)) eqn:Hbad; [discriminate|].
  intros [= <-]. apply orb_false_elim in Hbad as [Htruthy Hlt].
  split.
  - exists 1%Z. simpl. split; [reflexivity|]. split; [lia|].
    destruct n as [ |neg|z]; simpl in *; try discriminate.
    + destruct neg; [discriminate|reflexivity].
    + apply negb_true_iff. apply Z.ltb_ge. apply Z.ltb_ge in Hlt. lia.
  - intros eventType set. simpl. rewrite lookup_empty. discriminate.
Qed.

Lemma Set_add_NoDup set cb :
  NoDup (List.map fn_ref set) -> NoDup (List.map fn_ref (Set_add set cb)).
Proof.
  intros Hnd. unfold Set_add. destruct (Set_has set cb) eqn:Hhas; [exact Hnd|].
  rewrite List.map_app. simpl. apply NoDup_app. split; [exact Hnd|].
  split; [|apply NoDup_singleton].
  intros ref Hin Hin'. apply list_elem_of_singleton in Hin'. subst ref.
  apply list_elem_of_In, in_map_iff in Hin as (x & Href & Hx).
  unfold Set_has in Hhas.
  assert (existsb (fun x => Nat.eqb (fn_ref x) (fn_ref cb)) set = true) as Hex.
  { apply existsb_exists. exists x. split; [exact Hx|]. apply Nat.eqb_eq. exact Href. }
  congruence.
Qed.

Lemma Set_delete_NoDup set cb :
  NoDup (List.map fn_ref set) -> NoDup (List.map fn_ref (Set_delete set cb)).
Proof.
  unfold Set_delete. induction set as [|x set IH]; simpl; [auto|].
  intros Hnd. apply NoDup_cons in Hnd as [Hx Hnd].
  destruct (negb (Nat.eqb (fn_ref x) (fn_ref cb))); simpl; [|auto].
  apply NoDup_cons. split; [|auto].
  intros Hin. apply Hx. apply list_elem_of_In in Hin. apply list_elem_of_In.
  apply in_map_iff in Hin as (y & Hy & Hin). apply in_map_iff. exists y.
  split; [exact Hy|]. apply filter_In in Hin. tauto.
Qed.

(** Every method keeps the store well formed. *)
Lemma reachable_well_formed this : reachable this -> well_formed this.
Proof.
  induction 1 as [totalPages this Hnew
                 |this pageNum Hr IH
                 |this eventType callback this' Hr IH Hadd
                 |this eventType callback Hr IH].
  - eapply constructor_well_formed; eauto.
  - destruct (setCurrentPage this pageNum) as [[r this'] effects] eqn:Hcall.
    simpl. destruct r.
    + apply setCurrentPage_true in Hcall
        as (n & -> & Hlow & Hhigh & Hsame & -> & _).
      destruct IH as [(c & Hc & Hc1 & Hc2) Hsets]. split; [|exact Hsets].
      exists n. simpl. split; [reflexivity|]. split; [exact Hlow|].
      apply num_le_not_gt; [|exact Hhigh]. eapply num_le_not_NaN; eauto.
    + pose proof (setCurrentPage_false this pageNum) as Hf.
      rewrite Hcall in Hf. specialize (Hf eq_refl). injection Hf as <-. exact IH.
  - unfold addEventListener in Hadd. destruct callback as [v|cb]; [discriminate|].
    injection Hadd as <-. destruct IH as [Hpage Hsets]. split; [exact Hpage|].
    intros ty set. simpl. intros Hset.
    destruct (decide (eventType = ty)) as [->|Hne].
    * rewrite lookup_insert_eq in Hset. injection Hset as <-.
      apply Set_add_NoDup.
      destruct (_listeners this !! ty) as [set0|] eqn:Hty.
      -- rewrite Hty. simpl. eauto.
      -- rewrite lookup_insert_eq. simpl. apply NoDup_nil. constructor.
    * rewrite lookup_insert_ne in Hset by exact Hne.
      destruct (_listeners this !! eventType) as [set0|] eqn:Hty; [eauto|].
      rewrite lookup_insert_ne in Hset by exact Hne. eauto.
  - unfold removeEventListener.
    destruct (_listeners this !! eventType) as [set0|] eqn:Hty; [|exact IH].
    destruct callback as [v|cb]; [exact IH|].
    destruct IH as [Hpage Hsets]. split; [exact Hpage|].
    intros ty set. simpl. intros Hset.
    destruct (decide (eventType = ty)) as [->|Hne].
    * rewrite lookup_insert_eq in Hset. injection Hset as <-.
      apply Set_delete_NoDup. eauto.
    * rewrite lookup_insert_ne in Hset by exact Hne. eauto.
Qed.

End StoreFacts.

Lemma deck10_reachable : reachable deck10.
Proof. apply reachable_new with (totalPages := Some (Int 10)). reflexivity. Qed.

Lemma subscribe_reachable this eventType cb :
  reachable this -> reachable (subscribe this eventType cb).
Proof.
  intros Hr.
  apply (reachable_addEventListener this eventType (Callable cb)); [exact Hr|].
  reflexivity.
Qed.

Lemma watched10_reachable : reachable watched10.
Proof. repeat apply subscribe_reachable. exact deck10_reachable. Qed.

(** Acceptance of an integer on a reachable store. *)
Lemma setCurrentPage_accepts (this : StateManager.t) (Hreach : reachable this)
    (n : Z) :
  ((StateManager.setCurrentPage this (VNum (Int n))).1.1 = true <->
     (1 <= n)%Z /\
     num_le (Int n) (StateManager.getTotalPages this) = true /\
     Int n <> StateManager.getCurrentPage this).
Proof.
  destruct (reachable_well_formed this Hreach) as [(c & Hc & Hc1 & Hc2) _].
  pose proof (num_le_not_NaN _ _ Hc2) as Hnan.
  unfold StateManager.getTotalPages, StateManager.getCurrentPage.
  rewrite setCurrentPage_Int, Hc.
  rewrite <- (num_le_not_gt n _ Hnan).
  destruct (n <? 1)%Z eqn:Hlow; cbn [orb].
  - apply Z.ltb_lt in Hlow. simpl. split; [discriminate|]. lia.
  - apply Z.ltb_ge in Hlow.
    destruct (num_gt (Int n) (StateManager._totalPages this)); simpl.
    + split; [discriminate|]. intros (_ & ? & _). discriminate.
    + destruct (n =? c)%Z eqn:Hsame; simpl.
      * apply Z.eqb_eq in Hsame. subst. split; [discriminate|].
        intros (_ & _ & Hne). congruence.
      * apply Z.eqb_neq in Hsame. split; [|reflexivity].
        intros _. repeat split; [exact Hlow|congruence].
Qed.

(** C1. For every integer [n] and every reachable store,
    [setCurrentPage(n)] returns true if and only if
    [1 <= n <= totalPages] and [n] is not the current page; a call on
    what is not an integer returns false; and whenever a call returns
    false, on any argument, the store it leaves is the store it found
    (current page, page count and listeners) and nothing was emitted. *)
Theorem setCurrentPage_accepts_iff (this : StateManager.t) (Hreach : reachable this)
    (n : Z) :
  ((StateManager.setCurrentPage this (VNum (Int n))).1.1 = true <->
     (1 <= n)%Z /\
     num_le (Int n) (StateManager.getTotalPages this) = true /\
     Int n <> StateManager.getCurrentPage this) /\
  (forall pageNum,
      Number_isInteger pageNum = false ->
      (StateManager.setCurrentPage this pageNum).1.1 = false) /\
  (forall pageNum,
      (StateManager.setCurrentPage this pageNum).1.1 = false ->
      (StateManager.setCurrentPage this pageNum).1.2 = this /\
      (StateManager.setCurrentPage this pageNum).2 = []).
Proof.
  split; [|split].
  - exact (setCurrentPage_accepts this Hreach n).
  - intros pageNum Hint.
    destruct pageNum as [ | |b|m|s|elems|props]; try reflexivity.
    unfold StateManager.setCurrentPage. rewrite Hint. reflexivity.
  - intros pageNum Hfalse.
    rewrite (setCurrentPage_false this pageNum Hfalse). split; reflexivity.
Qed.

Lemma setCurrentPage_accepts_iff_witness :
  reachable deck10 /\
  ((StateManager.setCurrentPage deck10 (VNum (Int 5))).1.1 = true <->
     (1 <= 5)%Z /\
     num_le (Int 5) (StateManager.getTotalPages deck10) = true /\
     Int 5 <> StateManager.getCurrentPage deck10) /\
  (StateManager.setCurrentPage deck10 (VStr (u "5"))).1.1 = false /\
  (StateManager.setCurrentPage deck10 (VNum (Int 11))).1.2 = deck10.
Proof.
  destruct (setCurrentPage_accepts_iff deck10 deck10_reachable 5)
    as (Hiff & Hnot_integer & Hfalse).
  split; [exact deck10_reachable|]. split; [exact Hiff|]. split.
  - apply Hnot_integer. reflexivity.
  - apply Hfalse. reflexivity.
Defined.

Lemma setCurrentPage_all_reachable this pageNums :
  reachable this -> reachable (setCurrentPage_all this pageNums).
Proof.
  revert this. induction pageNums as [|pageNum pageNums IH]; intros this Hr; [exact Hr|].
  simpl. apply IH. apply reachable_setCurrentPage. exact Hr.
Qed.

Lemma setCurrentPage_totalPages this pageNum :
  StateManager.getTotalPages (StateManager.setCurrentPage this pageNum).1.2
  = StateManager.getTotalPages this.
Proof.
  destruct (StateManager.setCurrentPage this pageNum) as [[r this'] effects] eqn:Hcall.
  destruct r.
  - apply setCurrentPage_true in Hcall as (n & _ & _ & _ & _ & -> & _). reflexivity.
  - pose proof (setCurrentPage_false this pageNum) as Hf.
    rewrite Hcall in Hf. specialize (Hf eq_refl). injection Hf as <-. reflexivity.
Qed.

Lemma setCurrentPage_all_totalPages this pageNums :
  StateManager.getTotalPages (setCurrentPage_all this pageNums)
  = StateManager.getTotalPages this.
Proof.
  revert this. induction pageNums as [|pageNum pageNums IH]; intros this; [reflexivity|].
  simpl. rewrite IH. apply setCurrentPage_totalPages.
Qed.

Lemma reachable_page_in_range this : reachable this -> page_in_range this.
Proof.
  intros Hr. destruct (reachable_well_formed this Hr) as [(c & Hc & Hc1 & Hc2) _].
  unfold page_in_range, StateManager.getCurrentPage, StateManager.getTotalPages.
  rewrite Hc. split; [|exact Hc2]. apply num_le_Int. exact Hc1.
Qed.

(** C3. Constructing the store with any [totalPages >= 1] succeeds, and
    then, after any sequence of [setCurrentPage] calls with arbitrary
    arguments (the empty one included), [1 <= currentPage <= totalPages]
    holds and [totalPages] is the constructor's argument; constructing it
    with [totalPages < 1], or without the argument, throws. *)
Theorem page_invariant (totalPages : number) :
  (num_le (Int 1) totalPages = true ->
   exists this,
     StateManager.constructor (Some totalPages) = Return this /\
     forall pageNums,
       page_in_range (setCurrentPage_all this pageNums) /\
       StateManager.getTotalPages (setCurrentPage_all this pageNums) = totalPages) /\
  (num_lt totalPages (Int 1) = true ->
   StateManager.constructor (Some totalPages)
   = Throw (Error (u "totalPages must be a positive number"))) /\
  StateManager.constructor None
  = Throw (Error (u "totalPages must be a positive number")).
Proof.
  split; [|split; [|reflexivity]].
  - intros Hge.
    assert (negb (truthy (VNum totalPages)) || num_lt totalPages (Int 1) = false) as Hok.
    { destruct totalPages as [ |neg|z]; simpl in *; try discriminate.
      - destruct neg; [discriminate|reflexivity].
      - apply negb_true_iff, Z.ltb_ge in Hge.
        apply orb_false_intro.
        + apply negb_false_iff, negb_true_iff, Z.eqb_neq. lia.
        + apply Z.ltb_ge. lia. }
    eexists. split.
    + unfold StateManager.constructor. rewrite Hok. reflexivity.
    + intros pageNums. split.
      * apply reachable_page_in_range, setCurrentPage_all_reachable.
        apply reachable_new with (totalPages := Some totalPages).
        unfold StateManager.constructor. rewrite Hok. reflexivity.
      * rewrite setCurrentPage_all_totalPages. reflexivity.
  - intros Hlt. unfold StateManager.constructor. rewrite Hlt, orb_true_r. reflexivity.
Qed.

Lemma page_invariant_witness :
  num_le (Int 1) (Int 10) = true /\
  num_lt (Int 0) (Int 1) = true /\
  (exists this,
     StateManager.constructor (Some (Int 10)) = Return this /\
     forall pageNums,
       page_in_range (setCurrentPage_all this pageNums) /\
       StateManager.getTotalPages (setCurrentPage_all this pageNums) = Int 10) /\
  StateManager.constructor (Some (Int 0))
  = Throw (Error (u "totalPages must be a positive number")).
Proof.
  split; [reflexivity|]. split; [reflexivity|]. split.
  - apply (proj1 (page_invariant (Int 10))). reflexivity.
  - apply (proj1 (proj2 (page_invariant (Int 0)))). reflexivity.
Defined.

Section EmitFacts.
Import StateManager.

Lemma forEach_listener_app this data set1 set2 :
  forEach_listener this data (set1 ++ set2)
  = forEach_listener this data set1 ++ forEach_listener this data set2.
Proof. unfold forEach_listener. apply flat_map_app. Qed.

(** [forEach] calls every listener of the set once, in order, whatever
    the earlier ones did. *)
Lemma invocations_forEach this data set :
  invocations (forEach_listener this data set)
  = List.map (fun cb => (fn_ref cb, data, _currentPage this)) set.
Proof.
  unfold forEach_listener.
  induction set as [|cb set IH]; [reflexivity|]. simpl.
  destruct (fn_body cb data (_currentPage this)); simpl; rewrite IH; reflexivity.
Qed.

Lemma emit_listeners_of this eventType data :
  _emit this eventType data = forEach_listener this data (listeners_of this eventType).
Proof.
  unfold _emit, listeners_of. destruct (_listeners this !! eventType); reflexivity.
Qed.

Lemma count_calls_notin (ref : nat) data page set :
  ~ In ref (List.map fn_ref set) ->
  List.filter (fun i : nat * JsVal * number => Nat.eqb i.1.1 ref)
    (List.map (fun cb => (fn_ref cb, data, page)) set) = [].
Proof.
  induction set as [|x set IH]; simpl; [reflexivity|]. intros Hnot.
  destruct (Nat.eqb (fn_ref x) ref) eqn:Heq.
  - apply Nat.eqb_eq in Heq. tauto.
  - apply IH. tauto.
Qed.

(** In a set without repeated references, a registered function is
    called exactly once by a [forEach]. *)
Lemma forEach_calls_once this data set cb :
  NoDup (List.map fn_ref set) ->
  In cb set ->
  times_invoked (fn_ref cb) (forEach_listener this data set) = 1.
Proof.
  unfold times_invoked. rewrite invocations_forEach.
  induction set as [|x set IH]; simpl; [tauto|].
  intros Hnd Hin. apply NoDup_cons in Hnd as [Hx Hnd].
  rewrite list_elem_of_In in Hx.
  destruct (Nat.eqb (fn_ref x) (fn_ref cb)) eqn:Heq.
  - apply Nat.eqb_eq in Heq. simpl. rewrite count_calls_notin; [reflexivity|].
    rewrite <- Heq. exact Hx.
  - apply Nat.eqb_neq in Heq. destruct Hin as [->|Hin]; [congruence|]. auto.
Qed.

End EmitFacts.

(** C2. On a reachable store, an accepted [setCurrentPage(n)] performs
    exactly one emission, of type "pageChanged", whose data is
    [{currentPage: n, previousPage: the page before the call,
    totalPages}]: the listeners of "pageChanged", and no others, are
    called, in registration order, each exactly once and each with that
    data, while the store already shows page [n]. A call that returns
    false emits nothing. *)
Theorem setCurrentPage_emits_once (this : StateManager.t) (Hreach : reachable this)
    (pageNum : JsVal) (r : bool) (this' : StateManager.t) (effects : list effect)
    (Hcall : StateManager.setCurrentPage this pageNum = (r, this', effects)) :
  (r = true ->
   exists n,
     let data := VObj [(u "currentPage", VNum n);
                       (u "previousPage", VNum (StateManager.getCurrentPage this));
                       (u "totalPages", VNum (StateManager.getTotalPages this))] in
     pageNum = VNum n /\
     StateManager.getCurrentPage this' = n /\
     effects = StateManager._emit this' (u "pageChanged") data /\
     invocations effects
     = List.map (fun cb => (fn_ref cb, data, n)) (listeners_of this (u "pageChanged")) /\
     forall cb, In cb (listeners_of this (u "pageChanged")) ->
                times_invoked (fn_ref cb) effects = 1) /\
  (r = false -> effects = []).
Proof.
  split.
  - intros ->.
    apply setCurrentPage_true in Hcall
      as (n & -> & Hlow & Hhigh & Hsame & -> & ->).
    exists (Int n). cbn zeta. split; [reflexivity|]. split; [reflexivity|].
    split; [reflexivity|]. rewrite emit_listeners_of.
    change (listeners_of _ (u "pageChanged")) with (listeners_of this (u "pageChanged")).
    split.
    + rewrite invocations_forEach. reflexivity.
    + intros cb Hin. apply forEach_calls_once; [|exact Hin].
      destruct (reachable_well_formed this Hreach) as [_ Hsets].
      unfold listeners_of in *.
      destruct (StateManager._listeners this !! u "pageChanged") as [set|] eqn:Hset.
      * simpl. eauto.
      * simpl. apply NoDup_nil. constructor.
  - intros ->. pose proof (setCurrentPage_false this pageNum) as Hf.
    rewrite Hcall in Hf. specialize (Hf eq_refl). congruence.
Qed.

Lemma setCurrentPage_emits_once_witness :
  let call := StateManager.setCurrentPage watched10 (VNum (Int 5)) in
  reachable watched10 /\
  call.1.1 = true /\
  exists n,
    StateManager.getCurrentPage call.1.2 = n /\
    invocations call.2
    = List.map
        (fun cb => (fn_ref cb,
                    VObj [(u "currentPage", VNum n);
                          (u "previousPage", VNum (Int 1));
                          (u "totalPages", VNum (Int 10))],
                    n))
        [quiet 1; faulty 2; quiet 3].
Proof.
  cbv zeta. split; [exact watched10_reachable|]. split; [reflexivity|].
  destruct (proj1 (setCurrentPage_emits_once watched10 watched10_reachable
                     (VNum (Int 5))
                     (StateManager.setCurrentPage watched10 (VNum (Int 5))).1.1
                     (StateManager.setCurrentPage watched10 (VNum (Int 5))).1.2
                     (StateManager.setCurrentPage watched10 (VNum (Int 5))).2
                     eq_refl) eq_refl)
    as (n & _ & Hpage & _ & Hcalls & _).
  exists n. split; [exact Hpage|exact Hcalls].
Defined.

(** C7. On a reachable store, let [n] be a page that [setCurrentPage]
    accepts and let a listener of "pageChanged" throw when called with
    the event. Then the call still returns true and the store shows page
    [n]; the listeners registered before the faulty one were called, the
    faulty one was called and its error was caught and reported with
    [console.error], and every listener registered after it was called
    too, in order, with the same event data. *)
Theorem listener_isolation (this : StateManager.t) (Hreach : reachable this) (n : Z)
    (before after : list callback) (cb : callback) (error : JsVal)
    (Hlow : (1 <= n)%Z)
    (Hhigh : num_le (Int n) (StateManager.getTotalPages this) = true)
    (Hnew : Int n <> StateManager.getCurrentPage this)
    (Hreg : listeners_of this (u "pageChanged") = before ++ cb :: after)
    (Hthrows : fn_body cb
                 (StateManager.pageChanged_data (Int n)
                    (StateManager.getCurrentPage this)
                    (StateManager.getTotalPages this))
                 (Int n) = Some error) :
  let data := StateManager.pageChanged_data (Int n)
                (StateManager.getCurrentPage this)
                (StateManager.getTotalPages this) in
  exists this' effects_before effects_after,
    StateManager.setCurrentPage this (VNum (Int n))
    = (true, this',
       effects_before
       ++ Invoke (fn_ref cb) data (Int n) :: ConsoleError error :: effects_after) /\
    StateManager.getCurrentPage this' = Int n /\
    invocations effects_before
    = List.map (fun cb' => (fn_ref cb', data, Int n)) before /\
    invocations effects_after
    = List.map (fun cb' => (fn_ref cb', data, Int n)) after.
Proof.
  intros data.
  pose proof (proj2 (setCurrentPage_accepts this Hreach n)
                (conj Hlow (conj Hhigh Hnew))) as Hacc.
  destruct (StateManager.setCurrentPage this (VNum (Int n)))
    as [[r this'] effects] eqn:Hcall.
  simpl in Hacc. subst r.
  apply setCurrentPage_true in Hcall
    as (m & [= <-] & _ & _ & _ & -> & ->).
  set (this' := {| StateManager._totalPages := StateManager._totalPages this;
                   StateManager._currentPage := Int n;
                   StateManager._listeners := StateManager._listeners this |}).
  exists this', (StateManager.forEach_listener this' data before),
    (StateManager.forEach_listener this' data after).
  split; [|split; [reflexivity|split; apply invocations_forEach]].
  f_equal. rewrite emit_listeners_of.
  change (listeners_of this' (u "pageChanged"))
    with (listeners_of this (u "pageChanged")).
  rewrite Hreg, forEach_listener_app. f_equal.
  unfold StateManager.forEach_listener at 1. simpl.
  fold (StateManager.forEach_listener this' data after).
  unfold data, StateManager.getCurrentPage, StateManager.getTotalPages in *.
  rewrite Hthrows. reflexivity.
Qed.

Lemma listener_isolation_witness :
  let data := StateManager.pageChanged_data (Int 5) (Int 1) (Int 10) in
  exists this' effects_before effects_after,
    StateManager.setCurrentPage watched10 (VNum (Int 5))
    = (true, this',
       effects_before
       ++ Invoke 2 data (Int 5) :: ConsoleError (VStr (u "boom")) :: effects_after) /\
    StateManager.getCurrentPage this' = Int 5 /\
    invocations effects_before = [(1, data, Int 5)] /\
    invocations effects_after = [(3, data, Int 5)].
Proof.
  apply (listener_isolation watched10 watched10_reachable 5
           [quiet 1] [quiet 3] (faulty 2) (VStr (u "boom"))).
  - lia.
  - reflexivity.
  - discriminate.
  - reflexivity.
  - reflexivity.
Defined.

Section ListenerSetFacts.
Import StateManager.

Lemma Set_has_In set cb :
  Set_has set cb = true <-> exists x, In x set /\ fn_ref x = fn_ref cb.
Proof.
  unfold Set_has. rewrite existsb_exists.
  split; intros (x & Hin & Href); exists x; split; auto; apply Nat.eqb_eq; exact Href.
Qed.

Lemma Set_has_add set cb : Set_has (Set_add set cb) cb = true.
Proof.
  unfold Set_add. destruct (Set_has set cb) eqn:Hhas; [exact Hhas|].
  apply Set_has_In. exists cb. split; [|reflexivity].
  apply in_or_app. right. left. reflexivity.
Qed.

(** Adding to a set a function it holds leaves the set as it is. *)
Lemma Set_add_idempotent set cb : Set_add (Set_add set cb) cb = Set_add set cb.
Proof. unfold Set_add at 1. rewrite Set_has_add. reflexivity. Qed.

(** After a registration the event type has a set, which holds the
    function. *)
Lemma addEventListener_registers this eventType cb this' :
  addEventListener this eventType (Callable cb) = Return this' ->
  exists set,
    _totalPages this' = _totalPages this /\
    _currentPage this' = _currentPage this /\
    _listeners this' = <[eventType := Set_add set cb]> (_listeners this) /\
    set = listeners_of this eventType.
Proof.
  unfold addEventListener, listeners_of. intros [= <-].
  exists (default [] (_listeners this !! eventType)). simpl.
  destruct (_listeners this !! eventType) as [set|] eqn:Hset.
  - rewrite Hset. auto.
  - rewrite lookup_insert_eq, insert_insert_eq. auto.
Qed.

End ListenerSetFacts.

(** C10. On a reachable store, register a callback for an event type.
    Registering the same callback for the same type again returns the
    very same store: the listener set is unchanged. Hence, when the type
    is "pageChanged", every accepted [setCurrentPage] on the store calls
    that callback exactly once. *)
Theorem addEventListener_idempotent (this : StateManager.t) (Hreach : reachable this)
    (eventType : jsstring) (cb : callback) (once : StateManager.t)
    (Hadd : StateManager.addEventListener this eventType (Callable cb) = Return once) :
  StateManager.addEventListener once eventType (Callable cb) = Return once /\
  (eventType = u "pageChanged" ->
   forall pageNum this' effects,
     StateManager.setCurrentPage once pageNum = (true, this', effects) ->
     times_invoked (fn_ref cb) effects = 1).
Proof.
  pose proof (reachable_addEventListener _ _ _ _ Hreach Hadd) as Honce.
  destruct (addEventListener_registers _ _ _ _ Hadd)
    as (set & Htotal & Hcurrent & Hlisteners & _).
  assert (StateManager._listeners once !! eventType
          = Some (StateManager.Set_add set cb)) as Hset.
  { rewrite Hlisteners. apply lookup_insert_eq. }
  split.
  - unfold StateManager.addEventListener. rewrite Hset. simpl. rewrite Hset. simpl.
    rewrite Set_add_idempotent, insert_id by exact Hset.
    destruct once; reflexivity.
  - intros -> pageNum this' effects Hcall.
    apply setCurrentPage_true in Hcall as (n & _ & _ & _ & _ & -> & ->).
    rewrite emit_listeners_of.
    change (listeners_of _ (u "pageChanged"))
      with (listeners_of once (u "pageChanged")).
    unfold listeners_of. rewrite Hset. simpl.
    destruct (proj1 (Set_has_In _ _) (Set_has_add set cb)) as (x & Hin & <-).
    apply forEach_calls_once; [|exact Hin].
    destruct (reachable_well_formed once Honce) as [_ Hsets]. eauto.
Qed.

Lemma addEventListener_idempotent_witness :
  let once := subscribe deck10 (u "pageChanged") (quiet 1) in
  reachable deck10 /\
  StateManager.addEventListener once (u "pageChanged") (Callable (quiet 1))
  = Return once /\
  times_invoked 1 (StateManager.setCurrentPage once (VNum (Int 5))).2 = 1.
Proof.
  cbv zeta. split; [exact deck10_reachable|].
  destruct (addEventListener_idempotent deck10 deck10_reachable (u "pageChanged")
              (quiet 1) (subscribe deck10 (u "pageChanged") (quiet 1)) eq_refl)
    as [Hsame Honce].
  split; [exact Hsame|].
  apply (Honce eq_refl (VNum (Int 5))
           (StateManager.setCurrentPage
              (subscribe deck10 (u "pageChanged") (quiet 1)) (VNum (Int 5))).1.2).
  reflexivity.
Defined.

(** ** Reading a page number back from its decimal print *)

Section ParseFacts.

(** Evaluate [digit_value] on the code unit at hand. *)
Ltac eval_digit :=
  match goal with
  | |- context [digit_value ?c] =>
      let v := eval vm_compute in (digit_value c) in
      change (digit_value c) with v
  end.

Lemma parse_digits_acc_pos (d : Decimal.uint) (a : positive) :
  parse_digits 10 (digits_of_uint d) (Some (Zpos a))
  = Some (Zpos (Pos.of_uint_acc d a)).
Proof.
  revert a. induction d as [|d IH|d IH|d IH|d IH|d IH|d IH|d IH|d IH|d IH|d IH];
    intros a; [reflexivity|..];
    cbn [digits_of_uint parse_digits Pos.of_uint_acc]; eval_digit;
    cbn [Z.ltb Z.compare Pos.compare Pos.compare_cont from_option id];
    rewrite <- IH; do 2 f_equal; lia.
Qed.

Lemma parse_digits_acc_zero (d : Decimal.uint) :
  parse_digits 10 (digits_of_uint d) (Some 0%Z) = Some (Z.of_N (Pos.of_uint d)).
Proof.
  induction d as [|d IH|d IH|d IH|d IH|d IH|d IH|d IH|d IH|d IH|d IH];
    [reflexivity|exact IH|..];
    cbn [digits_of_uint parse_digits Pos.of_uint]; eval_digit;
    cbn [Z.ltb Z.compare Pos.compare Pos.compare_cont from_option id];
    apply (parse_digits_acc_pos d).
Qed.

(** The integers up to 2^53 in magnitude are Number values. *)
Lemma to_double_safe (z : Z) : (Z.abs z <= 2 ^ 53)%Z -> to_double z = Int z.
Proof.
  intros Hz. destruct (Z.eq_dec (Z.abs z) (2 ^ 53)%Z) as [Heq|Hne].
  - destruct z as [|p|p]; cbn [Z.abs] in Heq; try discriminate Heq;
      injection Heq as ->; vm_compute; reflexivity.
  - unfold to_double. rewrite (proj2 (Z.ltb_lt _ _)) by lia. reflexivity.
Qed.

(** A decimal numeral reads back as the Number value for its value. *)
Lemma parseInt_numeral (d : Decimal.uint) :
  d <> Nil ->
  parseInt (VStr (digits_of_uint d)) = to_double (Z.of_N (Pos.of_uint d)).
Proof.
  intros Hd. pose proof (parse_digits_acc_zero d) as Hparse.
  unfold parseInt. cbn [ToString].
  assert (forall (o : option Z) (z : Z),
             o = Some z -> match o with
                           | Some mathInt => to_double (1 * mathInt)
                           | None => NaN
                           end = to_double z) as Hread.
  { intros o z ->. f_equal. lia. }
  destruct d as [|d|d|d|d|d|d|d|d|d|d]; [congruence|..];
    try (cbn [digits_of_uint trim_start is_whitespace] in *;
         apply Hread; exact Hparse).
  destruct d as [|d|d|d|d|d|d|d|d|d|d];
    cbn [digits_of_uint trim_start is_whitespace] in *;
    apply Hread; exact Hparse.
Qed.

Lemma to_uint_not_Nil (p : positive) : Pos.to_uint p <> Nil.
Proof.
  intros Hnil. pose proof (DecimalPos.Unsigned.of_to p) as Hof.
  rewrite Hnil in Hof. discriminate.
Qed.

Lemma print_positive_plain (p : positive) :
  (Zpos p < 10 ^ 21)%Z -> print_positive p = digits_of_uint (Pos.to_uint p).
Proof.
  intros Hp. unfold print_positive. rewrite (proj2 (Z.ltb_lt _ _)) by exact Hp.
  reflexivity.
Qed.

(** Below 10^21 [parseInt] reads a positive integer back from all its
    digits. *)
Lemma parseInt_plain (p : positive) :
  (Zpos p < 10 ^ 21)%Z -> parseInt (VNum (Int (Zpos p))) = to_double (Zpos p).
Proof.
  intros Hp.
  assert (parseInt (VNum (Int (Zpos p)))
          = parseInt (VStr (digits_of_uint (Pos.to_uint p)))) as ->.
  { unfold parseInt. cbn [ToString Number_toString].
    rewrite print_positive_plain by exact Hp. reflexivity. }
  rewrite parseInt_numeral by apply to_uint_not_Nil.
  rewrite DecimalPos.Unsigned.of_to. reflexivity.
Qed.

(** [parseInt] gives a positive integer up to 2^53 back. *)
Lemma parseInt_positive (p : positive) :
  (Zpos p <= 2 ^ 53)%Z -> parseInt (VNum (Int (Zpos p))) = Int (Zpos p).
Proof.
  intros Hp. rewrite parseInt_plain by lia. apply to_double_safe. lia.
Qed.

End ParseFacts.

(** ** The client tools *)




(** The tool on any argument but [null]: when the page it reads,
    [parseInt] of the argument or of its [pageNumber], is NaN or outside
    [1..totalPages], it resolves to the "Invalid page number" failure and
    the store is untouched. *)
Lemma goToPage_invalid (this : StateManager.t) (params : JsVal) :
  params <> VNull ->
  let pageNum := match params with
                 | VObj props => lookup_prop props (u "pageNumber")
                 | VArr _ => VUndefined
                 | _ => params
                 end in
  isNaN (parseInt pageNum) || num_lt (parseInt pageNum) (Int 1)
  || num_gt (parseInt pageNum) (StateManager.getTotalPages this) = true ->
  ClientTools.goToPage this params
  = (Return {| success := false;
               message := u "Invalid page number. Must be between 1 and "
                          ++ Number_toString (StateManager.getTotalPages this);
               currentPage := StateManager.getCurrentPage this;
               totalPages := StateManager.getTotalPages this |},
     this, []).
Proof.
  intros Hnull pageNum Hbad. unfold ClientTools.goToPage.
  destruct params as [ | |b|n|s|elems|props]; [|congruence|..];
    cbn [typeof Get];
    match goal with
    | |- context [str_eqb ?a ?b] =>
        let v := eval vm_compute in (str_eqb a b) in change (str_eqb a b) with v
    end;
    cbv iota zeta; fold pageNum;
    change (NavigationController.getTotalPages this)
      with (StateManager.getTotalPages this);
    rewrite Hbad; reflexivity.
Qed.

(** The scenario of the specification: on a 10-page deck that does not
    show page 3, [goToPage({pageNumber: "3"})] jumps to page 3. *)
Lemma goToPage_scenario (this : StateManager.t) :
  StateManager.getTotalPages this = Int 10 ->
  StateManager.getCurrentPage this <> Int 3 ->
  exists this' effects,
    ClientTools.goToPage this (VObj [(u "pageNumber", VStr (u "3"))])
    = (Return {| success := true;
                 message := u "Jumped to page 3 of 10";
                 currentPage := Int 3;
                 totalPages := Int 10 |},
       this', effects) /\
    StateManager.getCurrentPage this' = Int 3.
Proof.
  unfold StateManager.getTotalPages, StateManager.getCurrentPage.
  intros Htotal Hcurrent. unfold ClientTools.goToPage. cbn [typeof Get lookup_prop].
  change (str_eqb (u "object") (u "object")) with true.
  change (str_eqb (u "pageNumber") (u "pageNumber")) with true. cbv iota zeta.
  change (parseInt (VStr (u "3"))) with (Int 3).
  unfold NavigationController.getTotalPages, StateManager.getTotalPages.
  rewrite Htotal. cbn [isNaN num_lt num_gt orb Z.ltb Z.compare Pos.compare
                       Pos.compare_cont].
  unfold NavigationController.goToPage. rewrite setCurrentPage_Int, Htotal.
  cbn [num_lt num_gt orb Z.ltb Z.compare Pos.compare Pos.compare_cont].
  assert (num_eq (Int 3) (StateManager._currentPage this) = false) as ->.
  { destruct (StateManager._currentPage this) as [ |neg|c]; try reflexivity.
    apply Z.eqb_neq. congruence. }
  cbv zeta. cbn [negb]. eexists _, _. split; reflexivity.
Qed.

(** C4, at the argument on which the tool fails. [goToPage(null)]: as
    [typeof null] is "object", the tool reads [null.pageNumber], which
    throws a TypeError; the promise is rejected instead of resolving to
    [{success: false, message: "Invalid page number..."}]. The store is
    untouched. *)
Theorem goToPage_null_rejects (this : StateManager.t) :
  ClientTools.goToPage this VNull = (Throw TypeError, this, []).
Proof. reflexivity. Qed.

(** ** The transcript manager *)

Section TranscriptFacts.
Import TranscriptManager.

(** A property read on a payload that is neither [null] nor
    [undefined] returns the field. *)
Lemma Get_field (payload : JsVal) (name : jsstring) :
  payload <> VUndefined -> payload <> VNull ->
  Get payload name = Return (field payload name).
Proof. destruct payload; try reflexivity; congruence. Qed.

Lemma truthy_not_nullish (payload : JsVal) :
  truthy payload = true -> payload <> VUndefined /\ payload <> VNull.
Proof. destruct payload; simpl; try discriminate; split; discriminate. Qed.

(** The source's test [v && typeof v === 'string'] picks the non-empty
    strings. *)
Lemma nonempty_string_spec (v : JsVal) :
  nonempty_string v = match v with
                      | VStr (c :: s) => Some (c :: s)
                      | _ => None
                      end.
Proof.
  destruct v as [ | |b|n|s|elems|props]; try reflexivity.
  - destruct b; reflexivity.
  - destruct n as [ |neg|z]; try reflexivity. unfold nonempty_string.
    rewrite andb_false_r. reflexivity.
  - destruct s; reflexivity.
Qed.

Lemma extractContent_spec (payload : JsVal) :
  truthy payload = true -> _extractContent payload = Return (content_spec payload).
Proof.
  intros Htruthy. destruct (truthy_not_nullish _ Htruthy) as [Hundef Hnull].
  unfold _extractContent, content_spec.
  rewrite !Get_field by assumption. cbn [bind first_nonempty_string].
  rewrite !nonempty_string_spec.
  destruct (field payload (u "message")) as [ | |?|?|[|? ?]|?|?]; try reflexivity;
    destruct (field payload (u "text")) as [ | |?|?|[|? ?]|?|?]; try reflexivity;
    destruct (field payload (u "content")) as [ | |?|?|[|? ?]|?|?]; try reflexivity;
    destruct (field payload (u "transcript")) as [ | |?|?|[|? ?]|?|?]; try reflexivity;
    destruct payload as [ | |?|?|[|? ?]|?|?]; try reflexivity; discriminate.
Qed.

Lemma determineRole_spec (payload : JsVal) :
  payload <> VUndefined -> payload <> VNull ->
  _determineRole payload = Return (role_spec payload).
Proof.
  intros Hundef Hnull. unfold _determineRole, role_spec.
  rewrite !Get_field by assumption. cbn [bind existsb].
  destruct (is_str (field payload (u "source")) (u "user")
            || is_str (field payload (u "type")) (u "user_transcript"));
    [reflexivity|].
  destruct (is_str (field payload (u "source")) (u "ai")
            || is_str (field payload (u "type")) (u "agent_response"));
    [reflexivity|].
  destruct (is_str (field payload (u "role")) (u "user")); [reflexivity|].
  rewrite orb_false_r.
  destruct (is_str (field payload (u "role")) (u "assistant")
            || is_str (field payload (u "role")) (u "agent")); reflexivity.
Qed.

Lemma role_spec_valid (payload : JsVal) :
  role_spec payload = u "user" \/ role_spec payload = u "agent".
Proof.
  unfold role_spec.
  repeat match goal with
         | |- context [if ?b then _ else _] => destruct b
         end; auto.
Qed.

Lemma content_spec_truthy (payload : JsVal) (c : jsstring) :
  content_spec payload = Some c -> truthy payload = true /\ c <> [].
Proof.
  unfold content_spec, field.
  destruct payload as [ | |b|n|s|elems|props]; cbn [first_nonempty_string];
    try discriminate.
  - destruct s; cbn [first_nonempty_string]; [discriminate|].
    intros [= <-]. split; [reflexivity|discriminate].
  - intros Hc. split; [reflexivity|].
    repeat match type of Hc with
           | match ?v with _ => _ end = _ =>
               destruct v as [ | |?|?|[|? ?]|?|?]
           end;
      cbn [first_nonempty_string] in Hc; try discriminate;
      injection Hc as <-; discriminate.
Qed.

Lemma content_spec_falsy (payload : JsVal) :
  truthy payload = false -> content_spec payload = None.
Proof.
  intros Hfalsy. destruct (content_spec payload) as [c|] eqn:Hc; [|reflexivity].
  apply content_spec_truthy in Hc as [Htruthy _]. congruence.
Qed.

End TranscriptFacts.

(** C5. For every inbound message (any payload but [null] and
    [undefined], which [handleVoiceMessage] turns away before it infers
    anything), [_determineRole] returns the role that the specification's
    first-match-wins order gives: user for [source == "user"] or
    [type == "user_transcript"]; else agent for [source == "ai"] or
    [type == "agent_response"]; else user for [role == "user"]; else
    agent, whether [role] is "assistant" or "agent" or the shape is
    unknown. *)
Theorem determineRole_order (payload : JsVal)
    (Hundefined : payload <> VUndefined) (Hnull : payload <> VNull) :
  TranscriptManager._determineRole payload = Return (role_spec payload).
Proof. apply determineRole_spec; assumption. Qed.

Lemma determineRole_order_witness :
  TranscriptManager._determineRole
    (VObj [(u "role", VStr (u "user")); (u "type", VStr (u "agent_response"))])
  = Return (u "agent").
Proof.
  apply (determineRole_order
           (VObj [(u "role", VStr (u "user")); (u "type", VStr (u "agent_response"))]));
    discriminate.
Defined.

Section HandleFacts.
Import TranscriptManager.

Lemma extractTimestamp_returns (payload : JsVal) (now : N) :
  payload <> VUndefined -> payload <> VNull ->
  exists stamp, _extractTimestamp payload now = Return stamp.
Proof.
  intros Hundef Hnull. unfold _extractTimestamp.
  rewrite !Get_field by assumption. cbn [bind].
  destruct (truthy (field payload (u "timestamp"))); [eauto|].
  destruct (truthy (field payload (u "time"))); eauto.
Qed.

(** [addMessage] keeps the two roles the normalizer can infer. *)
Lemma addMessage_role_spec chat payload content stamp :
  ChatInterface.addMessage chat (role_spec payload) content stamp
  = {| ChatInterface._messages :=
         ChatInterface._messages chat
         ++ [{| ChatInterface.role := role_spec payload;
                ChatInterface.content := ChatInterface._escapeHtml content;
                ChatInterface.timestamp := stamp |}] |}.
Proof.
  unfold ChatInterface.addMessage.
  destruct (role_spec_valid payload) as [-> | ->]; reflexivity.
Qed.

End HandleFacts.

(** C6. For every inbound message that [handleVoiceMessage] extracts
    from (every truthy payload), [_extractContent] returns the first
    non-empty string among the fields [message], [text], [content],
    [transcript] and then the payload itself if it is a string, and null
    otherwise. For every payload, when that extraction is null,
    [handleVoiceMessage] returns the manager unchanged: nothing is added
    to the history, nothing to the display. When it is a string,
    [handleVoiceMessage] adds exactly one entry to the history and exactly
    one message to the display, with the inferred role and that content
    (HTML-escaped on display). *)
Theorem handleVoiceMessage_content (this : TranscriptManager.t) (payload : JsVal)
    (now : N) :
  (truthy payload = true ->
   TranscriptManager._extractContent payload = Return (content_spec payload)) /\
  (content_spec payload = None ->
   TranscriptManager.handleVoiceMessage this payload now = Return this) /\
  (forall c, content_spec payload = Some c ->
   exists stamp,
     TranscriptManager.handleVoiceMessage this payload now
     = Return
         {| TranscriptManager._chatInterface :=
              {| ChatInterface._messages :=
                   ChatInterface._messages (TranscriptManager._chatInterface this)
                   ++ [{| ChatInterface.role := role_spec payload;
                          ChatInterface.content := ChatInterface._escapeHtml c;
                          ChatInterface.timestamp := stamp |}] |};
            TranscriptManager._conversation := TranscriptManager._conversation this;
            TranscriptManager._history :=
              TranscriptManager._history this
              ++ [{| TranscriptManager.role := role_spec payload;
                     TranscriptManager.content := c;
                     TranscriptManager.timestamp := stamp |}] |}).
Proof.
  split; [apply extractContent_spec|].
  assert (truthy payload = true ->
          exists stamp,
            TranscriptManager.handleVoiceMessage this payload now
            = match content_spec payload with
              | None | Some [] => Return this
              | Some c =>
                  Return (TranscriptManager.display
                            (TranscriptManager._addToHistory this
                               (role_spec payload) c stamp)
                            (role_spec payload) c stamp)
              end) as Hrun.
  { intros Htruthy. destruct (truthy_not_nullish _ Htruthy) as [Hundef Hnull].
    destruct (extractTimestamp_returns payload now Hundef Hnull) as [stamp Hstamp].
    exists stamp. unfold TranscriptManager.handleVoiceMessage.
    rewrite Htruthy, determineRole_spec, extractContent_spec, Hstamp by assumption.
    reflexivity. }
  split.
  - intros Hnone. destruct (truthy payload) eqn:Htruthy.
    + destruct (Hrun eq_refl) as [stamp ->]. rewrite Hnone. reflexivity.
    + unfold TranscriptManager.handleVoiceMessage. rewrite Htruthy. reflexivity.
  - intros c Hsome. destruct (content_spec_truthy _ _ Hsome) as [Htruthy Hc].
    destruct (Hrun Htruthy) as [stamp ->]. exists stamp. rewrite Hsome.
    destruct c as [|c0 c]; [congruence|].
    unfold TranscriptManager.display, TranscriptManager._addToHistory.
    cbn [TranscriptManager._chatInterface TranscriptManager._conversation
         TranscriptManager._history].
    rewrite addMessage_role_spec. reflexivity.
Qed.

Lemma handleVoiceMessage_content_witness :
  TranscriptManager._extractContent
    (VObj [(u "type", VStr (u "agent_response")); (u "text", VStr (u "hi"))])
  = Return (Some (u "hi")) /\
  TranscriptManager.handleVoiceMessage (fresh_manager None)
    (VObj [(u "foo", VStr (u "bar"))]) 7%N
  = Return (fresh_manager None) /\
  exists stamp,
    TranscriptManager.handleVoiceMessage (fresh_manager None)
      (VObj [(u "source", VStr (u "user")); (u "message", VStr (u "hello"))]) 7%N
    = Return
        {| TranscriptManager._chatInterface :=
             {| ChatInterface._messages :=
                  [{| ChatInterface.role := u "user";
                      ChatInterface.content := u "hello";
                      ChatInterface.timestamp := stamp |}] |};
           TranscriptManager._conversation := None;
           TranscriptManager._history :=
             [{| TranscriptManager.role := u "user";
                 TranscriptManager.content := u "hello";
                 TranscriptManager.timestamp := stamp |}] |}.
Proof.
  split; [|split].
  - apply (proj1 (handleVoiceMessage_content (fresh_manager None)
                    (VObj [(u "type", VStr (u "agent_response"));
                           (u "text", VStr (u "hi"))]) 7%N)).
    reflexivity.
  - apply (proj1 (proj2 (handleVoiceMessage_content (fresh_manager None)
                           (VObj [(u "foo", VStr (u "bar"))]) 7%N))).
    reflexivity.
  - apply (proj2 (proj2 (handleVoiceMessage_content (fresh_manager None)
                           (VObj [(u "source", VStr (u "user"));
                                  (u "message", VStr (u "hello"))]) 7%N))
             (u "hello")).
    reflexivity.
Defined.

Section TrimFacts.

Lemma trim_start_blank (s : jsstring) :
  forallb is_whitespace s = true -> trim_start s = [].
Proof.
  induction s as [|c s IH]; [reflexivity|]. cbn [forallb trim_start].
  intros Hall. apply andb_prop in Hall as [-> Hall]. auto.
Qed.

(** A string of white space trims to the empty string. *)
Lemma trim_blank (s : jsstring) : forallb is_whitespace s = true -> trim s = [].
Proof. intros Hall. unfold trim. rewrite trim_start_blank by exact Hall. reflexivity. Qed.

End TrimFacts.

(** C8. For every argument that is not a string, and for every string
    that is empty or made of white space only, [sendTextMessage] returns
    with the manager unchanged (no history entry, no message displayed),
    without calling the conversation object, whether or not a conversation
    is bound. *)
Theorem sendTextMessage_blank (this : TranscriptManager.t) (text : JsVal)
    (now later : N)
    (Hblank : forall s, text = VStr s -> forallb is_whitespace s = true) :
  TranscriptManager.sendTextMessage this text now later = (this, [], Return tt).
Proof.
  unfold TranscriptManager.sendTextMessage.
  destruct text as [ | |b|n|s|elems|props];
    try (destruct (negb (truthy _) || negb (str_eqb (typeof _) (u "string")));
         reflexivity).
  rewrite trim_blank by auto.
  destruct (negb (truthy (VStr s)) || negb (str_eqb (typeof (VStr s)) (u "string")));
    reflexivity.
Qed.

Lemma sendTextMessage_blank_witness :
  TranscriptManager.sendTextMessage (fresh_manager (Some plain_conversation))
    (VStr (u "   ")) 7%N 8%N
  = (fresh_manager (Some plain_conversation), [], Return tt).
Proof.
  apply (sendTextMessage_blank (fresh_manager (Some plain_conversation))
           (VStr (u "   ")) 7%N 8%N).
  intros s [= <-]. reflexivity.
Defined.

(** ** Scenarios of the specification *)

Section Scenarios.

Example parseInt_digits : parseInt (VStr (u "3")) = Int 3.
Proof. reflexivity. Qed.

Example parseInt_prefix : parseInt (VStr (u "  -12px")) = Int (-12).
Proof. reflexivity. Qed.

Example parseInt_hex : parseInt (VStr (u "0x1F")) = Int 31.
Proof. reflexivity. Qed.

Example parseInt_undefined : parseInt VUndefined = NaN.
Proof. reflexivity. Qed.

Example parseInt_array : parseInt (VArr [VNum (Int 7); VNull]) = Int 7.
Proof. reflexivity. Qed.

Example parseInt_object : parseInt (VObj [(u "pageNumber", VNum (Int 7))]) = NaN.
Proof. reflexivity. Qed.

(** A store of 10 pages: [setCurrentPage(5)] returns true and emits
    [{currentPage: 5, previousPage: 1, totalPages: 10}]; then
    [setCurrentPage(5)], [setCurrentPage(11)] and [setCurrentPage(0)]
    return false and emit nothing. *)
Example store_scenario :
  let first := StateManager.setCurrentPage watched10 (VNum (Int 5)) in
  first.1.1 = true /\
  invocations first.2
  = List.map (fun ref => (ref, StateManager.pageChanged_data (Int 5) (Int 1) (Int 10), Int 5))
      [1; 2; 3] /\
  List.map (fun pageNum => ((StateManager.setCurrentPage first.1.2 pageNum).1.1,
                            (StateManager.setCurrentPage first.1.2 pageNum).2))
    [VNum (Int 5); VNum (Int 11); VNum (Int 0)]
  = [(false, []); (false, []); (false, [])].
Proof. repeat split; reflexivity. Qed.

(** The inbound messages of the specification. *)
Example normalizer_scenario :
  TranscriptManager._determineRole
    (VObj [(u "source", VStr (u "user")); (u "message", VStr (u "hello"))])
  = Return (u "user") /\
  TranscriptManager._determineRole
    (VObj [(u "type", VStr (u "agent_response")); (u "text", VStr (u "hi"))])
  = Return (u "agent") /\
  TranscriptManager._extractContent (VObj [(u "foo", VStr (u "bar"))]) = Return None.
Proof. repeat split; reflexivity. Qed.

(** A text with something in it is trimmed, recorded, shown and sent
    through the first method the conversation object has. *)
Example sendTextMessage_sends :
  let '(manager, calls, settled) :=
    TranscriptManager.sendTextMessage (fresh_manager (Some plain_conversation))
      (VStr (u " next slide ")) 7%N 8%N in
  List.map TranscriptManager.content (TranscriptManager._history manager)
  = [u "next slide"] /\
  calls = [Call (u "sendMessage") (u "next slide")] /\
  settled = Return tt.
Proof. repeat split; reflexivity. Qed.

End Scenarios.

(** * Further properties *)

(** ** Page boundaries and the navigation buttons *)

Lemma reachable_current (this : StateManager.t) :
  reachable this ->
  exists c : Z,
    StateManager._currentPage this = Int c /\ (1 <= c)%Z /\
    ((exists t : Z, StateManager._totalPages this = Int t /\ (c <= t)%Z) \/
     StateManager._totalPages this = Infinity false).
Proof.
  intros Hr. destruct (reachable_well_formed this Hr) as [(c & Hc & Hc1 & Hc2) _].
  exists c. split; [exact Hc|]. split; [exact Hc1|].
  destruct (StateManager._totalPages this) as [ |[|]|t]; try discriminate.
  - right. reflexivity.
  - left. exists t. split; [reflexivity|]. apply num_le_Int. exact Hc2.
Qed.

(** Where the two tests of the store fail. *)
Lemma buttons_boundaries_aux (this : StateManager.t) (Hreach : reachable this) :
  (StateManager.canGoNext this = false <->
     StateManager.getCurrentPage this = StateManager.getTotalPages this) /\
  (StateManager.canGoPrevious this = false <->
     StateManager.getCurrentPage this = Int 1).
Proof.
  destruct (reachable_current this Hreach) as (c & Hc & Hc1 & Htotal). split.
  - unfold StateManager.canGoNext, StateManager.getCurrentPage,
      StateManager.getTotalPages. rewrite Hc.
    destruct Htotal as [(t & -> & Hct)| ->]; simpl.
    + rewrite Z.ltb_ge. split; [intros; f_equal; lia|intros [= ->]; lia].
    + split; discriminate.
  - unfold StateManager.canGoPrevious, StateManager.getCurrentPage, num_gt.
    rewrite Hc. simpl. rewrite Z.ltb_ge.
    split; [intros; f_equal; lia|intros [= ->]; lia].
Qed.

(** X1. On a reachable store [canGoNext()] is false exactly on the last
    page and [canGoPrevious()] exactly on page 1; so [updateUI()] disables
    the Next button exactly on the last page and the Previous button
    exactly on page 1. *)
Theorem buttons_at_boundaries (this : StateManager.t) (Hreach : reachable this) :
  (StateManager.canGoNext this = false <->
     StateManager.getCurrentPage this = StateManager.getTotalPages this) /\
  (StateManager.canGoPrevious this = false <->
     StateManager.getCurrentPage this = Int 1) /\
  (UIControls.nextButton_disabled (UIControls.updateUI this) = true <->
     StateManager.getCurrentPage this = StateManager.getTotalPages this) /\
  (UIControls.prevButton_disabled (UIControls.updateUI this) = true <->
     StateManager.getCurrentPage this = Int 1).
Proof.
  destruct (buttons_boundaries_aux this Hreach) as [Hnext Hprev].
  split; [exact Hnext|]. split; [exact Hprev|].
  unfold UIControls.updateUI. simpl. rewrite !negb_true_iff. tauto.
Qed.

Lemma buttons_at_boundaries_witness :
  reachable deck10 /\
  UIControls.prevButton_disabled (UIControls.updateUI deck10) = true /\
  (UIControls.nextButton_disabled (UIControls.updateUI deck10) = true <->
     Int 1 = Int 10).
Proof.
  destruct (buttons_at_boundaries deck10 deck10_reachable) as (_ & _ & Hnext & Hprev).
  split; [exact deck10_reachable|]. split; [|exact Hnext].
  apply Hprev. reflexivity.
Defined.

(** ** Listener sets *)

Section ListenerOrderFacts.
Import StateManager.

Lemma removeEventListener_listeners this eventType cb eventType' :
  listeners_of (removeEventListener this eventType (Callable cb)) eventType'
  = if decide (eventType = eventType')
    then Set_delete (listeners_of this eventType') cb
    else listeners_of this eventType'.
Proof.
  unfold removeEventListener, listeners_of.
  destruct (_listeners this !! eventType) as [set|] eqn:Hset; simpl.
  - destruct (decide (eventType = eventType')) as [<-|Hne].
    + rewrite lookup_insert_eq, Hset. reflexivity.
    + rewrite lookup_insert_ne by exact Hne. reflexivity.
  - destruct (decide (eventType = eventType')) as [<-|Hne]; [|reflexivity].
    rewrite Hset. reflexivity.
Qed.

Lemma addEventListener_listeners this eventType cb this' eventType' :
  addEventListener this eventType (Callable cb) = Return this' ->
  listeners_of this' eventType'
  = if decide (eventType = eventType')
    then Set_add (listeners_of this eventType') cb
    else listeners_of this eventType'.
Proof.
  intros Hadd. destruct (addEventListener_registers _ _ _ _ Hadd)
    as (set & _ & _ & Hl & ->).
  unfold listeners_of at 1. rewrite Hl.
  destruct (decide (eventType = eventType')) as [<-|Hne].
  - rewrite lookup_insert_eq. reflexivity.
  - rewrite lookup_insert_ne by exact Hne. reflexivity.
Qed.

Lemma invocations_filter_delete data page set cb :
  List.map (fun x => (fn_ref x, data, page)) (Set_delete set cb)
  = List.filter (fun i : nat * JsVal * number => negb (Nat.eqb i.1.1 (fn_ref cb)))
      (List.map (fun x => (fn_ref x, data, page)) set).
Proof.
  unfold Set_delete. induction set as [|x set IH]; [reflexivity|]. simpl.
  destruct (negb (Nat.eqb (fn_ref x) (fn_ref cb))); simpl; rewrite IH; reflexivity.
Qed.

Lemma Set_delete_add_fresh set cb :
  Set_has set cb = false -> Set_delete (Set_add set cb) cb = set.
Proof.
  intros Hfresh. unfold Set_add. rewrite Hfresh. unfold Set_delete.
  rewrite List.filter_app. simpl. rewrite Nat.eqb_refl. simpl.
  rewrite app_nil_r. unfold Set_has in Hfresh.
  induction set as [|x set IH]; [reflexivity|]. simpl in *.
  apply orb_false_elim in Hfresh as [-> Hfresh]. simpl. f_equal. auto.
Qed.

(** The effects of a call only depend on the page state and on the
    listeners of "pageChanged". *)
Lemma setCurrentPage_invocations this pageNum this' effects :
  setCurrentPage this pageNum = (true, this', effects) ->
  invocations effects
  = List.map
      (fun x => (fn_ref x,
                 pageChanged_data (_currentPage this') (_currentPage this)
                   (_totalPages this),
                 _currentPage this'))
      (listeners_of this (u "pageChanged")).
Proof.
  intros Hcall. apply setCurrentPage_true in Hcall as (n & _ & _ & _ & _ & -> & ->).
  rewrite emit_listeners_of, invocations_forEach. reflexivity.
Qed.

(** Two stores with the same page state accept the same calls. *)
Lemma setCurrentPage_same_pages this other pageNum :
  _currentPage other = _currentPage this ->
  _totalPages other = _totalPages this ->
  (setCurrentPage other pageNum).1.1 = (setCurrentPage this pageNum).1.1 /\
  _currentPage (setCurrentPage other pageNum).1.2
  = _currentPage (setCurrentPage this pageNum).1.2.
Proof.
  intros Hc Ht.
  destruct pageNum as [ | |b|n|s|elems|props];
    try (split; [reflexivity|exact Hc]).
  unfold setCurrentPage. rewrite Hc, Ht.
  destruct (negb (Number_isInteger (VNum n)) || num_lt n (Int 1)
            || num_gt n (_totalPages this));
    [split; [reflexivity|exact Hc]|].
  destruct (num_eq n (_currentPage this)); split; solve [reflexivity|exact Hc].
Qed.

End ListenerOrderFacts.

Lemma removeEventListener_pages this eventType callback :
  StateManager._currentPage (StateManager.removeEventListener this eventType callback)
  = StateManager._currentPage this /\
  StateManager._totalPages (StateManager.removeEventListener this eventType callback)
  = StateManager._totalPages this.
Proof.
  unfold StateManager.removeEventListener.
  destruct (StateManager._listeners this !! eventType); [|auto].
  destruct callback; auto.
Qed.

Lemma setCurrentPage_eta this pageNum :
  StateManager.setCurrentPage this pageNum
  = ((StateManager.setCurrentPage this pageNum).1.1,
     (StateManager.setCurrentPage this pageNum).1.2,
     (StateManager.setCurrentPage this pageNum).2).
Proof. destruct (StateManager.setCurrentPage this pageNum) as [[? ?] ?]. reflexivity. Qed.

(** X2. After [removeEventListener("pageChanged", cb)], on any store, an
    accepted [setCurrentPage] no longer calls [cb]; the call is accepted
    exactly as it would have been without the removal, and the other
    listeners are called as they would have been: in the same order, with
    the same data. *)
Theorem removeEventListener_silences (this : StateManager.t) (cb : callback)
    (pageNum : JsVal) (this' : StateManager.t) (effects : list effect)
    (Hcall : StateManager.setCurrentPage
               (StateManager.removeEventListener this (u "pageChanged") (Callable cb))
               pageNum
             = (true, this', effects)) :
  times_invoked (fn_ref cb) effects = 0 /\
  (StateManager.setCurrentPage this pageNum).1.1 = true /\
  invocations effects
  = List.filter (fun i => negb (Nat.eqb i.1.1 (fn_ref cb)))
      (invocations (StateManager.setCurrentPage this pageNum).2).
Proof.
  set (removed := StateManager.removeEventListener this (u "pageChanged") (Callable cb))
    in *.
  destruct (removeEventListener_pages this (u "pageChanged") (Callable cb))
    as [Hcurrent Htotal]. fold removed in Hcurrent, Htotal.
  destruct (setCurrentPage_same_pages this removed pageNum Hcurrent Htotal)
    as [Hsame Hpage].
  rewrite Hcall in Hsame, Hpage. simpl in Hsame, Hpage.
  pose proof (setCurrentPage_eta this pageNum) as Heta. rewrite <- Hsame in Heta.
  apply setCurrentPage_invocations in Heta. rewrite <- Hpage in Heta.
  apply setCurrentPage_invocations in Hcall.
  rewrite Hcurrent, Htotal in Hcall.
  unfold removed in Hcall. rewrite removeEventListener_listeners in Hcall.
  destruct (decide (u "pageChanged" = u "pageChanged")) as [_|Hne]; [|congruence].
  rewrite invocations_filter_delete in Hcall. rewrite <- Heta in Hcall.
  split; [|split; [symmetry; exact Hsame|exact Hcall]].
  unfold times_invoked. rewrite Hcall.
  generalize (invocations (StateManager.setCurrentPage this pageNum).2).
  intros l. induction l as [|i l IH]; [reflexivity|]. simpl.
  destruct (Nat.eqb i.1.1 (fn_ref cb)) eqn:Heq; simpl; [exact IH|].
  rewrite Heq. exact IH.
Qed.

Lemma removeEventListener_silences_witness :
  let removed :=
    StateManager.removeEventListener watched10 (u "pageChanged") (Callable (faulty 2)) in
  times_invoked 2 (StateManager.setCurrentPage removed (VNum (Int 5))).2 = 0 /\
  List.map (fun i => i.1.1)
    (invocations (StateManager.setCurrentPage removed (VNum (Int 5))).2) = [1; 3].
Proof.
  cbv zeta.
  destruct (removeEventListener_silences watched10 (faulty 2) (VNum (Int 5))
              (StateManager.setCurrentPage
                 (StateManager.removeEventListener watched10 (u "pageChanged")
                    (Callable (faulty 2)))
                 (VNum (Int 5))).1.2
              (StateManager.setCurrentPage
                 (StateManager.removeEventListener watched10 (u "pageChanged")
                    (Callable (faulty 2)))
                 (VNum (Int 5))).2
              eq_refl) as (Hnone & _ & Hothers).
  split; [exact Hnone|]. rewrite Hothers. reflexivity.
Defined.

(** X3. A function registered for "pageChanged" that was not in the set
    is called last: after the registration an accepted [setCurrentPage]
    calls the earlier listeners as before, then the new function, with
    the same event data. *)
Theorem addEventListener_appends (this : StateManager.t) (cb : callback)
    (once : StateManager.t) (pageNum : JsVal) (this' : StateManager.t)
    (effects : list effect)
    (Hfresh : StateManager.Set_has (listeners_of this (u "pageChanged")) cb = false)
    (Hadd : StateManager.addEventListener this (u "pageChanged") (Callable cb)
            = Return once)
    (Hcall : StateManager.setCurrentPage once pageNum = (true, this', effects)) :
  (StateManager.setCurrentPage this pageNum).1.1 = true /\
  invocations effects
  = invocations (StateManager.setCurrentPage this pageNum).2
    ++ [(fn_ref cb,
         StateManager.pageChanged_data (StateManager.getCurrentPage this')
           (StateManager.getCurrentPage this) (StateManager.getTotalPages this),
         StateManager.getCurrentPage this')].
Proof.
  destruct (addEventListener_registers _ _ _ _ Hadd)
    as (set & Htotal & Hcurrent & _ & _).
  destruct (setCurrentPage_same_pages this once pageNum Hcurrent Htotal)
    as [Hsame Hpage].
  rewrite Hcall in Hsame, Hpage. simpl in Hsame, Hpage.
  pose proof (setCurrentPage_eta this pageNum) as Heta. rewrite <- Hsame in Heta.
  apply setCurrentPage_invocations in Heta. rewrite <- Hpage in Heta.
  apply setCurrentPage_invocations in Hcall.
  rewrite Hcurrent, Htotal in Hcall.
  rewrite (addEventListener_listeners _ _ _ _ (u "pageChanged") Hadd) in Hcall.
  destruct (decide (u "pageChanged" = u "pageChanged")) as [_|Hne]; [|congruence].
  unfold StateManager.Set_add in Hcall. rewrite Hfresh in Hcall.
  rewrite List.map_app in Hcall. rewrite <- Heta in Hcall.
  split; [symmetry; exact Hsame|exact Hcall].
Qed.

Lemma addEventListener_appends_witness :
  List.map (fun i => i.1.1)
    (invocations
       (StateManager.setCurrentPage
          (subscribe watched10 (u "pageChanged") (quiet 9)) (VNum (Int 5))).2)
  = [1; 2; 3; 9].
Proof.
  destruct (addEventListener_appends watched10 (quiet 9)
              (subscribe watched10 (u "pageChanged") (quiet 9)) (VNum (Int 5))
              (StateManager.setCurrentPage
                 (subscribe watched10 (u "pageChanged") (quiet 9)) (VNum (Int 5))).1.2
              (StateManager.setCurrentPage
                 (subscribe watched10 (u "pageChanged") (quiet 9)) (VNum (Int 5))).2
              eq_refl eq_refl eq_refl) as [_ Hcalls].
  rewrite Hcalls. reflexivity.
Defined.

(** X4. Removing a function right after registering it, when it was not
    registered for that event type before, gives back the listeners of
    every event type as they were, and leaves the pages alone. *)
Theorem removeEventListener_undoes_add (this : StateManager.t) (eventType : jsstring)
    (cb : callback) (once : StateManager.t)
    (Hfresh : StateManager.Set_has (listeners_of this eventType) cb = false)
    (Hadd : StateManager.addEventListener this eventType (Callable cb) = Return once) :
  let back := StateManager.removeEventListener once eventType (Callable cb) in
  (forall eventType', listeners_of back eventType' = listeners_of this eventType') /\
  StateManager.getCurrentPage back = StateManager.getCurrentPage this /\
  StateManager.getTotalPages back = StateManager.getTotalPages this.
Proof.
  intros back.
  destruct (addEventListener_registers _ _ _ _ Hadd)
    as (set & Htotal & Hcurrent & _ & _).
  destruct (removeEventListener_pages once eventType (Callable cb)) as [Hc Ht].
  split; [|split].
  - intros eventType'. unfold back. rewrite removeEventListener_listeners.
    rewrite (addEventListener_listeners _ _ _ _ eventType' Hadd).
    destruct (decide (eventType = eventType')) as [<-|Hne]; [|reflexivity].
    apply Set_delete_add_fresh. exact Hfresh.
  - unfold StateManager.getCurrentPage, back. congruence.
  - unfold StateManager.getTotalPages, back. congruence.
Qed.

Lemma removeEventListener_undoes_add_witness :
  listeners_of
    (StateManager.removeEventListener
       (subscribe watched10 (u "chatToggled") (quiet 9)) (u "chatToggled")
       (Callable (quiet 9)))
    (u "chatToggled") = [].
Proof.
  destruct (removeEventListener_undoes_add watched10 (u "chatToggled") (quiet 9)
              (subscribe watched10 (u "chatToggled") (quiet 9)) eq_refl eq_refl)
    as [Hlisteners _].
  rewrite Hlisteners. reflexivity.
Defined.

(** ** The navigation controller *)

Section NavigationFacts.
Import StateManager.

(** On a reachable store, what [setCurrentPage] does with an integer. *)
Lemma setCurrentPage_turn this (n : Z) :
  reachable this ->
  (1 <= n)%Z -> num_le (Int n) (_totalPages this) = true ->
  Int n <> _currentPage this ->
  setCurrentPage this (VNum (Int n)) = (true, turned_to this n, page_turn_effects this n).
Proof.
  intros Hr Hlow Hhigh Hnew.
  pose proof (proj2 (setCurrentPage_accepts this Hr n) (conj Hlow (conj Hhigh Hnew)))
    as Hacc.
  destruct (setCurrentPage this (VNum (Int n))) as [[r this'] effects] eqn:Hcall.
  cbn [fst snd] in Hacc. subst r.
  apply setCurrentPage_true in Hcall as (m & [= <-] & _ & _ & _ & -> & ->).
  reflexivity.
Qed.

Lemma turned_to_current this (c : Z) :
  _currentPage this = Int c -> turned_to this c = this.
Proof. intros Hc. destruct this. simpl in *. subst. reflexivity. Qed.

Lemma turned_to_reachable this (n : Z) :
  reachable this ->
  (1 <= n)%Z -> num_le (Int n) (_totalPages this) = true ->
  reachable (turned_to this n).
Proof.
  intros Hr Hlow Hhigh.
  destruct (reachable_current this Hr) as (c & Hc & _ & _).
  destruct (decide (n = c)) as [->|Hne].
  - rewrite turned_to_current by exact Hc. exact Hr.
  - pose proof (reachable_setCurrentPage this (VNum (Int n)) Hr) as Hr'.
    rewrite setCurrentPage_turn in Hr'; [exact Hr'|assumption..|].
    rewrite Hc. congruence.
Qed.

End NavigationFacts.

(** The page state of a reachable store, by cases on the page count. *)
Lemma reachable_pages (this : StateManager.t) :
  reachable this ->
  exists c : Z,
    StateManager.getCurrentPage this = Int c /\ (1 <= c)%Z /\
    num_le (Int c) (StateManager.getTotalPages this) = true /\
    (StateManager.getCurrentPage this = StateManager.getTotalPages this \/
     num_le (Int (c + 1)) (StateManager.getTotalPages this) = true /\
     StateManager.canGoNext this = true).
Proof.
  intros Hr. destruct (reachable_current this Hr) as (c & Hc & Hc1 & Htotal).
  unfold StateManager.getCurrentPage, StateManager.getTotalPages,
    StateManager.canGoNext.
  exists c. rewrite Hc. split; [reflexivity|]. split; [exact Hc1|].
  destruct Htotal as [(t & -> & Hct)| ->].
  - split; [apply num_le_Int; exact Hct|].
    destruct (decide (c = t)) as [->|Hne]; [left; reflexivity|right].
    split; [apply num_le_Int; lia|]. simpl. apply Z.ltb_lt. lia.
  - split; [reflexivity|]. right. split; reflexivity.
Qed.

Section StepFacts.
Import StateManager.






Lemma previousPage_first this :
  reachable this -> getCurrentPage this = Int 1 ->
  NavigationController.previousPage this = (false, this, []).
Proof.
  intros Hr Hfirst. unfold NavigationController.previousPage.
  rewrite (proj2 (proj2 (buttons_boundaries_aux this Hr)) Hfirst). reflexivity.
Qed.

Lemma previousPage_turn this (c : Z) :
  reachable this -> getCurrentPage this = Int c ->
  getCurrentPage this <> Int 1 -> (c <= 2 ^ 53)%Z ->
  NavigationController.previousPage this
  = (true, turned_to this (c - 1), page_turn_effects this (c - 1)).
Proof.
  intros Hr Hc Hnot Hsafe.
  destruct (reachable_pages this Hr) as (c0 & Hc0 & Hc1 & Hc2 & _).
  assert (c0 = c) as -> by congruence.
  destruct (buttons_boundaries_aux this Hr) as [_ Hprev].
  assert (canGoPrevious this = true) as Hcan
      by (apply not_false_is_true; intros Hf; apply Hprev in Hf; congruence).
  unfold NavigationController.previousPage. rewrite Hcan, Hc. cbn [negb num_sub].
  rewrite to_double_safe by lia. unfold NavigationController.goToPage.
  assert (c <> 1)%Z as Hc' by (intros ->; congruence).
  rewrite setCurrentPage_turn; [reflexivity|exact Hr|lia| |].
  - unfold getTotalPages in Hc2.
    destruct (_totalPages this) as [ |[|]|t]; try discriminate;
      [reflexivity|]. apply num_le_Int. apply num_le_Int in Hc2. lia.
  - unfold getCurrentPage in Hc. rewrite Hc. intros [= ?]. lia.
Qed.


End StepFacts.



(** X6. [previousPage()] on a reachable store showing page [c]: on page
    1 it returns false, leaves the store as it is and emits nothing; on
    any other page up to 2^53 it returns true, the store shows [c - 1],
    and the one "pageChanged" event of that change is emitted. *)
Theorem previousPage_step (this : StateManager.t) (Hreach : reachable this)
    (c : Z) (Hc : StateManager.getCurrentPage this = Int c) :
  (StateManager.getCurrentPage this = Int 1 ->
   NavigationController.previousPage this = (false, this, [])) /\
  (StateManager.getCurrentPage this <> Int 1 ->
   (c <= 2 ^ 53)%Z ->
   NavigationController.previousPage this
   = (true, turned_to this (c - 1), page_turn_effects this (c - 1))).
Proof.
  split.
  - apply previousPage_first. exact Hreach.
  - apply previousPage_turn; assumption.
Qed.

Lemma previousPage_step_witness :
  reachable (turned_to deck10 2) /\
  NavigationController.previousPage (turned_to deck10 2)
  = (true, turned_to (turned_to deck10 2) 1, page_turn_effects (turned_to deck10 2) 1).
Proof.
  assert (reachable (turned_to deck10 2)) as Hreach
    by (apply turned_to_reachable; [exact deck10_reachable|lia|reflexivity]).
  split; [exact Hreach|].
  apply (proj2 (previousPage_step (turned_to deck10 2) Hreach 2 eq_refl)).
  - discriminate.
  - vm_compute. discriminate.
Defined.







(** ** The client tools and the manual API *)

Section ToolFacts.

(** Away from [null], the tool works on the page value of its
    argument. *)
Lemma goToPage_tool_unfold (this : StateManager.t) (params : JsVal) :
  params <> VNull ->
  ClientTools.goToPage this params
  = let pageNumber := parseInt (page_argument params) in
    let total := StateManager.getTotalPages this in
    if isNaN pageNumber || num_lt pageNumber (Int 1) || num_gt pageNumber total
    then (Return {| success := false;
                    message := u "Invalid page number. Must be between 1 and "
                               ++ Number_toString total;
                    currentPage := StateManager.getCurrentPage this;
                    totalPages := total |}, this, [])
    else
      let '(changed, this', effects) :=
        StateManager.setCurrentPage this (VNum pageNumber) in
      if changed
      then (Return {| success := true;
                      message := u "Jumped to page " ++ Number_toString pageNumber
                                 ++ u " of " ++ Number_toString total;
                      currentPage := pageNumber;
                      totalPages := total |}, this', effects)
      else (Return {| success := false;
                      message := u "Failed to navigate to page "
                                 ++ Number_toString pageNumber;
                      currentPage := StateManager.getCurrentPage this';
                      totalPages := total |}, this', effects).
Proof.
  intros Hnull. unfold ClientTools.goToPage.
  destruct params as [ | |b|n|s|elems|props]; [|congruence|..];
    cbn [typeof Get page_argument];
    match goal with
    | |- context [str_eqb ?a ?b] =>
        let v := eval vm_compute in (str_eqb a b) in change (str_eqb a b) with v
    end;
    cbv iota zeta;
    change (NavigationController.getTotalPages this)
      with (StateManager.getTotalPages this);
    match goal with
    | |- context [if ?c then _ else _] => destruct c; [reflexivity|]
    end;
    unfold NavigationController.goToPage;
    match goal with
    | |- context [StateManager.setCurrentPage ?s ?v] =>
        destruct (StateManager.setCurrentPage s v) as [[[|] ?] ?]
    end; reflexivity.
Qed.

Lemma parseInt_cases (v : JsVal) :
  parseInt v = NaN \/ (exists negative, parseInt v = Infinity negative) \/
  exists n, parseInt v = Int n.
Proof.
  unfold parseInt.
  repeat match goal with
         | |- context [let '(_, _) := ?x in _] => destruct x
         end.
  destruct (parse_digits _ _ None) as [mathInt|]; [|eauto].
  destruct (to_double _) as [ |negative|n]; eauto.
Qed.

(** [parseInt] gives a negative integer down to -2^53 back. *)
Lemma parseInt_negative (p : positive) :
  (Zpos p <= 2 ^ 53)%Z -> parseInt (VNum (Int (Zneg p))) = Int (Zneg p).
Proof.
  intros Hp.
  pose proof (parse_digits_acc_zero (Pos.to_uint p)) as Hparse.
  pose proof (to_uint_not_Nil p) as Hd.
  rewrite DecimalPos.Unsigned.of_to in Hparse.
  unfold parseInt. cbn [ToString Number_toString].
  rewrite print_positive_plain by lia.
  assert (forall (o : option Z),
             o = Some (Zpos p) -> match o with
                                  | Some mathInt => to_double (-1 * mathInt)
                                  | None => NaN
                                  end = Int (Zneg p)) as Hread.
  { intros o ->. change (-1 * Zpos p)%Z with (Zneg p). apply to_double_safe.
    cbn [Z.abs]. exact Hp. }
  destruct (Pos.to_uint p) as [|d|d|d|d|d|d|d|d|d|d]; [congruence|..];
    try (cbn [digits_of_uint trim_start is_whitespace] in *;
         apply Hread; exact Hparse).
  destruct d as [|d|d|d|d|d|d|d|d|d|d];
    cbn [digits_of_uint trim_start is_whitespace] in *;
    apply Hread; exact Hparse.
Qed.

(** [parseInt(String(z))] is [z], for every integer up to 2^53 in
    magnitude. *)
Lemma parseInt_Int (z : Z) :
  (Z.abs z <= 2 ^ 53)%Z -> parseInt (VNum (Int z)) = Int z.
Proof.
  destruct z as [|p|p]; cbn [Z.abs]; intros Hz;
    [reflexivity|apply parseInt_positive; exact Hz|apply parseInt_negative; exact Hz].
Qed.

Lemma parseInt_number_string (n : number) :
  exact_digits n ->
  parseInt (VStr (Number_toString n))
  = match n with Int z => Int z | _ => NaN end.
Proof.
  destruct n as [ |[|]|z]; try reflexivity. intros Hz.
  change (parseInt (VStr (Number_toString (Int z)))) with (parseInt (VNum (Int z))).
  apply parseInt_Int. exact Hz.
Qed.

(** *** Printing is one-to-one *)

Lemma digits_of_uint_inj (d e : Decimal.uint) :
  digits_of_uint d = digits_of_uint e -> d = e.
Proof.
  revert e.
  induction d as [|d IH|d IH|d IH|d IH|d IH|d IH|d IH|d IH|d IH|d IH];
    intros [|e|e|e|e|e|e|e|e|e|e] Heq; cbn [digits_of_uint] in Heq;
    try reflexivity; try discriminate Heq;
    injection Heq as Heq; f_equal; apply IH; exact Heq.
Qed.

Lemma digits_of_uint_digits (d : Decimal.uint) :
  Forall (fun c => (48 <= c <= 57)%N) (digits_of_uint d).
Proof.
  induction d; cbn [digits_of_uint]; constructor; try assumption; lia.
Qed.

Lemma drop_zeros_other (c : N) (s : jsstring) :
  c <> 48%N -> drop_zeros (c :: s) = c :: s.
Proof.
  intros Hc. cbn [drop_zeros]. destruct c as [|p]; [reflexivity|].
  do 7 (try (destruct p as [p|p|]; try reflexivity)); congruence.
Qed.

Lemma drop_zeros_spec (s : jsstring) :
  exists k : nat, s = repeat 48%N k ++ drop_zeros s.
Proof.
  induction s as [|c s [k IH]]; [exists 0; reflexivity|].
  destruct (N.eq_dec c 48%N) as [->|Hc].
  - exists (S k). cbn [drop_zeros repeat app]. rewrite <- IH. reflexivity.
  - exists 0. rewrite drop_zeros_other by exact Hc. reflexivity.
Qed.

(** The digits are the significant ones followed by zeros. *)
Lemma significant_spec (digits : jsstring) :
  exists k : nat, digits = rev (drop_zeros (rev digits)) ++ repeat 48%N k.
Proof.
  destruct (drop_zeros_spec (rev digits)) as [k Hk]. exists k.
  rewrite <- (rev_involutive digits) at 1. rewrite Hk at 1.
  rewrite rev_app_distr. f_equal.
  clear. induction k as [|k IH]; [reflexivity|].
  cbn [repeat rev]. rewrite IH. clear.
  induction k as [|k IH]; [reflexivity|]. cbn [repeat app]. rewrite IH. reflexivity.
Qed.

Lemma significant_digits (digits : jsstring) :
  Forall (fun c => (48 <= c <= 57)%N) digits ->
  Forall (fun c => (48 <= c <= 57)%N) (rev (drop_zeros (rev digits))).
Proof.
  intros Hd. destruct (significant_spec digits) as [k Hk]. rewrite Hk in Hd.
  apply Forall_app in Hd. tauto.
Qed.

Lemma app_cons_split (x : N) (l1 l2 r1 r2 : jsstring) :
  ~ In x l1 -> ~ In x l2 -> l1 ++ x :: r1 = l2 ++ x :: r2 -> l1 = l2 /\ r1 = r2.
Proof.
  revert l2. induction l1 as [|a l1 IH]; intros [|b l2] H1 H2 Heq; cbn in *.
  - injection Heq as ->. split; reflexivity.
  - injection Heq as <- _. tauto.
  - injection Heq as -> _. tauto.
  - injection Heq as -> Heq. destruct (IH l2) as [-> ->]; tauto.
Qed.

Lemma digits_no_e (s : jsstring) :
  Forall (fun c => (48 <= c <= 57)%N) s -> ~ In 101%N s.
Proof.
  intros Hs Hin. rewrite List.Forall_forall in Hs. apply Hs in Hin. lia.
Qed.

Lemma point_free (s : jsstring) :
  Forall (fun c => (48 <= c <= 57)%N) s ->
  List.filter (fun c => negb (N.eqb c 46)) s = s.
Proof.
  induction 1 as [|c l Hc _ IH]; [reflexivity|]. cbn [List.filter].
  destruct (N.eqb_spec c 46%N) as [->|_]; [lia|]. cbn [negb]. f_equal. exact IH.
Qed.

(** All the digits can be read off the exponent notation. *)
Lemma exponent_form_shape (digits : jsstring) :
  Forall (fun c => (48 <= c <= 57)%N) digits ->
  exponent_form digits = digits /\ (digits = [] \/ exists k : nat, digits = repeat 48%N (S k)) \/
  exists mantissa,
    Forall (fun c => (48 <= c <= 57 \/ c = 46)%N) mantissa /\
    exponent_form digits
    = mantissa ++ 101%N :: 43%N :: digits_of_uint (Nat.to_uint (length digits - 1)) /\
    List.filter (fun c => negb (N.eqb c 46)) mantissa = rev (drop_zeros (rev digits)) /\
    digits <> [].
Proof.
  intros Hd. pose proof (significant_digits digits Hd) as Hs.
  destruct (significant_spec digits) as [k Hk].
  unfold exponent_form.
  destruct (rev (drop_zeros (rev digits))) as [|d [|d' rest]] eqn:Hsig.
  - left. split; [reflexivity|]. cbn [app] in Hk.
    destruct k as [|k]; [left; exact Hk|right; exists k; exact Hk].
  - right. exists [d]. split; [|split; [reflexivity|split]].
    + constructor; [|constructor]. apply Forall_inv in Hs. lia.
    + apply point_free. exact Hs.
    + rewrite Hk. discriminate.
  - right. exists (d :: 46%N :: d' :: rest).
    split; [|split; [rewrite <- app_comm_cons; reflexivity|split]].
    + constructor; [apply Forall_inv in Hs; lia|].
      constructor; [right; reflexivity|].
      apply Forall_inv_tail in Hs. eapply Forall_impl; [exact Hs|]. cbn. lia.
    + change (d :: 46%N :: d' :: rest) with ([d] ++ [46%N] ++ d' :: rest).
      rewrite !List.filter_app.
      rewrite (point_free [d]) by (constructor; [apply Forall_inv in Hs; exact Hs|constructor]).
      rewrite (point_free (d' :: rest)) by (apply Forall_inv_tail in Hs; exact Hs).
      reflexivity.
    + rewrite Hk. discriminate.
Qed.

Lemma mantissa_exponent_inj (m1 m2 ds1 ds2 : jsstring) :
  Forall (fun c => (48 <= c <= 57 \/ c = 46)%N) m1 ->
  Forall (fun c => (48 <= c <= 57 \/ c = 46)%N) m2 ->
  List.filter (fun c => negb (N.eqb c 46)) m1 = rev (drop_zeros (rev ds1)) ->
  List.filter (fun c => negb (N.eqb c 46)) m2 = rev (drop_zeros (rev ds2)) ->
  ds1 <> [] -> ds2 <> [] ->
  m1 ++ 101%N :: 43%N :: digits_of_uint (Nat.to_uint (length ds1 - 1))
  = m2 ++ 101%N :: 43%N :: digits_of_uint (Nat.to_uint (length ds2 - 1)) ->
  ds1 = ds2.
Proof.
  intros Hm1 Hm2 Hf1 Hf2 Hne1 Hne2 Heq.
  apply app_cons_split in Heq as [-> Heq].
  - injection Heq as Heq. apply digits_of_uint_inj in Heq.
    apply DecimalNat.Unsigned.to_uint_inj in Heq.
    destruct (significant_spec ds1) as [k1 Hk1].
    destruct (significant_spec ds2) as [k2 Hk2].
    rewrite <- Hf1 in Hk1. rewrite <- Hf2 in Hk2.
    assert (length ds1 = length ds2) as Hlen
      by (destruct ds1, ds2; cbn [length] in *; try congruence; lia).
    rewrite Hk1, Hk2 in Hlen. rewrite !length_app, !repeat_length in Hlen.
    assert (k1 = k2) as -> by lia. congruence.
  - intros Hin. rewrite List.Forall_forall in Hm1. apply Hm1 in Hin. lia.
  - intros Hin. rewrite List.Forall_forall in Hm2. apply Hm2 in Hin. lia.
Qed.

(** The two notations tell all digit strings apart. *)
Lemma notation_inj (plain1 plain2 : bool) (ds1 ds2 : jsstring) :
  Forall (fun c => (48 <= c <= 57)%N) ds1 ->
  Forall (fun c => (48 <= c <= 57)%N) ds2 ->
  (if plain1 then ds1 else exponent_form ds1)
  = (if plain2 then ds2 else exponent_form ds2) ->
  ds1 = ds2.
Proof.
  intros H1 H2 Heq.
  assert (forall ds m rest,
             Forall (fun c => (48 <= c <= 57)%N) ds ->
             ds = m ++ 101%N :: rest -> False) as Hno.
  { intros ds m rest Hd ->. apply (digits_no_e _ Hd).
    apply in_or_app. right. left. reflexivity. }
  destruct plain1, plain2.
  - exact Heq.
  - destruct (exponent_form_shape ds2 H2) as [[E _]|(m & Hm & E & Hf & Hne)];
      rewrite E in Heq; [exact Heq|]. exfalso. exact (Hno _ _ _ H1 Heq).
  - destruct (exponent_form_shape ds1 H1) as [[E _]|(m & Hm & E & Hf & Hne)];
      rewrite E in Heq; [exact Heq|]. exfalso. symmetry in Heq.
    exact (Hno _ _ _ H2 Heq).
  - destruct (exponent_form_shape ds1 H1) as [[E1 _]|(m1 & Hm1 & E1 & Hf1 & Hne1)];
      destruct (exponent_form_shape ds2 H2) as [[E2 _]|(m2 & Hm2 & E2 & Hf2 & Hne2)];
      rewrite E1, E2 in Heq.
    + exact Heq.
    + exfalso. exact (Hno _ _ _ H1 Heq).
    + exfalso. symmetry in Heq. exact (Hno _ _ _ H2 Heq).
    + exact (mantissa_exponent_inj m1 m2 ds1 ds2 Hm1 Hm2 Hf1 Hf2 Hne1 Hne2 Heq).
Qed.

Lemma print_positive_inj (p q : positive) :
  print_positive p = print_positive q -> p = q.
Proof.
  unfold print_positive. intros Heq.
  apply notation_inj in Heq; try apply digits_of_uint_digits.
  apply digits_of_uint_inj in Heq.
  apply DecimalPos.Unsigned.to_uint_inj in Heq. exact Heq.
Qed.

(** A positive integer prints as a digit followed by more. *)
Lemma print_positive_head (p : positive) :
  exists d rest, print_positive p = d :: rest /\ (48 <= d <= 57)%N.
Proof.
  pose proof (digits_of_uint_digits (Pos.to_uint p)) as Hd.
  pose proof (to_uint_not_Nil p) as Hnil.
  assert (exists d rest, digits_of_uint (Pos.to_uint p) = d :: rest /\ (48 <= d <= 57)%N)
    as Hplain.
  { destruct (digits_of_uint (Pos.to_uint p)) as [|d rest] eqn:Hds.
    - destruct (Pos.to_uint p); try discriminate Hds. congruence.
    - exists d, rest. split; [reflexivity|]. apply Forall_inv in Hd. exact Hd. }
  unfold print_positive. destruct (Zpos p <? 10 ^ 21)%Z; [exact Hplain|].
  pose proof (significant_digits _ Hd) as Hs. unfold exponent_form.
  destruct (rev (drop_zeros (rev (digits_of_uint (Pos.to_uint p)))))
    as [|d [|d' rest]]; [exact Hplain|..];
    eexists _, _; (split; [reflexivity|]); apply Forall_inv in Hs; exact Hs.
Qed.

(** Printing is one-to-one on numbers. *)
Lemma Number_toString_inj (a b : number) :
  Number_toString a = Number_toString b -> a = b.
Proof.
  assert (forall p, print_positive p <> [48%N]) as Hzero.
  { intros p Heq.
    change [48%N] with (if true then digits_of_uint (D0 Nil) else []) in Heq.
    unfold print_positive in Heq.
    apply (notation_inj _ true) in Heq; try apply digits_of_uint_digits.
    apply digits_of_uint_inj in Heq.
    pose proof (DecimalPos.Unsigned.of_to p) as Hof. rewrite Heq in Hof.
    discriminate Hof. }
  assert (forall p c rest, print_positive p = c :: rest -> (48 <= c <= 57)%N) as Hhead.
  { intros p c rest Heq. destruct (print_positive_head p) as (d & r & Hd & Hrange).
    congruence. }
  destruct a as [ |[|]|[|p|p]], b as [ |[|]|[|q|q]]; cbn [Number_toString];
    intros Heq; try reflexivity;
    repeat match type of Heq with
           | context [u ?s] =>
               let v := eval vm_compute in (u s) in change (u s) with v in Heq
           end;
    try discriminate Heq;
    try (symmetry in Heq; apply Hzero in Heq; contradiction);
    try (apply Hzero in Heq; contradiction);
    try (apply Hhead in Heq; lia);
    try (symmetry in Heq; apply Hhead in Heq; lia);
    try (injection Heq as Heq; apply Hhead in Heq; lia);
    try (injection Heq as Heq; symmetry in Heq; apply Hhead in Heq; lia).
  - apply print_positive_inj in Heq. congruence.
  - injection Heq as Heq. apply print_positive_inj in Heq. congruence.
Qed.

End ToolFacts.

(** X9. The [goToPage] tool on a reachable store and any argument but
    [null], whose numbers are integers up to 2^53 in magnitude, NaN or
    infinite, resolves to a result. It reports success exactly when the
    page it reads from the argument, with [parseInt], is an integer
    between 1 and the page count other than the current page, and then
    the store shows that page; otherwise the store is left as it is and
    nothing is emitted. In every case the [currentPage] and [totalPages]
    of the result are what the store shows after the call. *)
Theorem goToPage_tool_outcome (this : StateManager.t) (Hreach : reachable this)
    (params : JsVal) (Hnull : params <> VNull)
    (Hprint : exactly_printed (page_argument params)) :
  exists result this' effects,
    ClientTools.goToPage this params = (Return result, this', effects) /\
    (success result = true <->
       exists n : Z,
         parseInt (page_argument params) = Int n /\ (1 <= n)%Z /\
         num_le (Int n) (StateManager.getTotalPages this) = true /\
         Int n <> StateManager.getCurrentPage this) /\
    (success result = true ->
       StateManager.getCurrentPage this' = parseInt (page_argument params)) /\
    (success result = false -> this' = this /\ effects = []) /\
    currentPage result = StateManager.getCurrentPage this' /\
    totalPages result = StateManager.getTotalPages this'.
Proof.
  rewrite goToPage_tool_unfold by exact Hnull. cbv zeta.
  destruct (reachable_well_formed this Hreach) as [(c & Hc & Hc1 & Hc2) _].
  pose proof (num_le_not_NaN _ _ Hc2) as Hnan.
  destruct (parseInt_cases (page_argument params)) as [Hp|[[negative Hp]|[n Hp]]];
    rewrite Hp.
  - cbn [isNaN orb]. eexists _, this, []. split; [reflexivity|]. cbn.
    repeat split; try discriminate. intros (m & ? & _). discriminate.
  - cbn [isNaN orb].
    destruct (num_lt (Infinity negative) (Int 1)
              || num_gt (Infinity negative) (StateManager.getTotalPages this)).
    + eexists _, this, []. split; [reflexivity|]. cbn.
      repeat split; try discriminate. intros (m & ? & _). discriminate.
    + cbn [StateManager.setCurrentPage Number_isInteger negb orb].
      eexists _, this, []. split; [reflexivity|]. cbn.
      repeat split; try discriminate. intros (m & ? & _). discriminate.
  - cbn [isNaN orb num_lt].
    destruct (n <? 1)%Z eqn:Hlow; cbn [orb].
    { apply Z.ltb_lt in Hlow. eexists _, this, []. split; [reflexivity|]. cbn.
      repeat split; try discriminate. intros (m & [= <-] & ? & _). lia. }
    apply Z.ltb_ge in Hlow.
    destruct (num_gt (Int n) (StateManager.getTotalPages this)) eqn:Hhigh.
    { eexists _, this, []. split; [reflexivity|]. cbn.
      repeat split; try discriminate. intros (m & [= <-] & _ & Hle & _).
      apply (num_le_not_gt n _ Hnan) in Hle.
      unfold StateManager.getTotalPages in Hhigh. congruence. }
    assert (num_le (Int n) (StateManager.getTotalPages this) = true) as Hle
        by (apply (num_le_not_gt n _ Hnan); exact Hhigh).
    destruct (decide (n = c)) as [->|Hne].
    + rewrite setCurrentPage_Int. unfold StateManager.getTotalPages in Hhigh.
      rewrite Hhigh, Hc. cbn [num_eq]. rewrite Z.eqb_refl.
      replace (c <? 1)%Z with false by (symmetry; apply Z.ltb_ge; lia). cbn [orb].
      eexists _, this, []. split; [reflexivity|]. cbn.
      repeat split; try discriminate; try (symmetry; exact Hc).
      intros (m & [= <-] & _ & _ & Hnew).
      unfold StateManager.getCurrentPage in Hnew. congruence.
    + rewrite setCurrentPage_turn; [|exact Hreach|exact Hlow|exact Hle|].
      2:{ rewrite Hc. congruence. }
      eexists _, (turned_to this n), _. split; [reflexivity|]. cbn.
      repeat split; try discriminate.
      intros _. exists n. unfold StateManager.getCurrentPage. rewrite Hc.
      repeat split; try assumption. congruence.
Qed.

Lemma goToPage_tool_outcome_witness :
  exists result this' effects,
    ClientTools.goToPage deck10 (VStr (u " 7th slide")) = (Return result, this', effects) /\
    success result = true /\
    StateManager.getCurrentPage this' = Int 7.
Proof.
  destruct (goToPage_tool_outcome deck10 deck10_reachable (VStr (u " 7th slide")))
    as (result & this' & effects & Hcall & Hiff & Hpage & _);
    [discriminate|exact I|].
  exists result, this', effects. split; [exact Hcall|].
  assert (success result = true) as Hok.
  { apply Hiff. exists 7%Z. repeat split; try reflexivity; [lia|discriminate]. }
  split; [exact Hok|exact (Hpage Hok)].
Defined.



(** X11. The [previousPage] tool on a reachable store of at most 2^53
    pages. On page 1 it answers [{success: false, message: "Already on
    first page"}] and changes nothing; on any other page [c] it answers
    [{success: true, message: "Moved to page c-1 of total"}] and the store
    shows [c - 1]. *)
Theorem previousPage_tool_outcome (this : StateManager.t) (Hreach : reachable this)
    (c t : Z) (Hc : StateManager.getCurrentPage this = Int c)
    (Ht : StateManager.getTotalPages this = Int t) (Hsafe : (t <= 2 ^ 53)%Z) :
  (c = 1%Z ->
   ClientTools.previousPage this
   = ({| success := false;
         message := u "Already on first page";
         currentPage := Int 1;
         totalPages := Int t |},
      this, [])) /\
  (c <> 1%Z ->
   ClientTools.previousPage this
   = ({| success := true;
         message := u "Moved to page " ++ Number_toString (Int (c - 1))
                    ++ u " of " ++ Number_toString (Int t);
         currentPage := Int (c - 1);
         totalPages := Int t |},
      turned_to this (c - 1), page_turn_effects this (c - 1))).
Proof.
  destruct (reachable_pages this Hreach) as (c0 & Hc0 & _ & Hle & _).
  assert (c0 = c) as -> by congruence.
  rewrite Ht in Hle. apply num_le_Int in Hle.
  unfold ClientTools.previousPage. split.
  - intros ->. rewrite previousPage_first by assumption.
    unfold NavigationController.getCurrentPage, NavigationController.getTotalPages.
    rewrite Hc, Ht. reflexivity.
  - intros Hne.
    rewrite (previousPage_turn this c Hreach Hc) by (congruence || lia).
    unfold NavigationController.getCurrentPage, NavigationController.getTotalPages.
    change (StateManager.getTotalPages (turned_to this (c - 1)))
      with (StateManager.getTotalPages this).
    rewrite Ht. reflexivity.
Qed.

Lemma previousPage_tool_outcome_witness :
  reachable deck10 /\
  ClientTools.previousPage deck10
  = ({| success := false;
        message := u "Already on first page";
        currentPage := Int 1;
        totalPages := Int 10 |},
     deck10, []).
Proof.
  split; [exact deck10_reachable|].
  assert (10 <= 2 ^ 53)%Z as Hsafe by (vm_compute; discriminate).
  apply (proj1 (previousPage_tool_outcome deck10 deck10_reachable 1 10 eq_refl eq_refl
                  Hsafe)).
  reflexivity.
Defined.

(** X12. [window.pdfController.goToPage] does not parse its argument:
    given a string it returns false and leaves the store alone, even when
    the string is the decimal numeral of a page, up to 2^53, that
    [setCurrentPage] would accept; the [goToPage] tool given the same
    numeral goes to that page. *)
Theorem api_goToPage_rejects_numerals (this : StateManager.t) (Hreach : reachable this)
    (s : jsstring) :
  APIController.goToPage this (VStr s) = (false, this, []) /\
  (forall n : Z,
      s = Number_toString (Int n) ->
      (1 <= n <= 2 ^ 53)%Z ->
      num_le (Int n) (StateManager.getTotalPages this) = true ->
      Int n <> StateManager.getCurrentPage this ->
      exists result,
        ClientTools.goToPage this (VStr s)
        = (Return result, turned_to this n, page_turn_effects this n) /\
        success result = true).
Proof.
  split; [reflexivity|]. intros n -> [Hlow Hsafe] Hhigh Hnew.
  rewrite goToPage_tool_unfold by discriminate. cbv zeta. cbn [page_argument].
  change (parseInt (VStr (Number_toString (Int n)))) with (parseInt (VNum (Int n))).
  rewrite parseInt_Int by lia. cbn [isNaN orb num_lt].
  replace (n <? 1)%Z with false by (symmetry; apply Z.ltb_ge; lia). cbn [orb].
  pose proof (num_le_not_NaN _ _ Hhigh) as Hnan.
  rewrite (proj2 (num_le_not_gt n _ Hnan) Hhigh).
  rewrite setCurrentPage_turn by assumption.
  eexists. split; reflexivity.
Qed.

Lemma api_goToPage_rejects_numerals_witness :
  reachable deck10 /\
  APIController.goToPage deck10 (VStr (u "3")) = (false, deck10, []) /\
  exists result,
    ClientTools.goToPage deck10 (VStr (u "3"))
    = (Return result, turned_to deck10 3, page_turn_effects deck10 3) /\
    success result = true.
Proof.
  destruct (api_goToPage_rejects_numerals deck10 deck10_reachable (u "3"))
    as [Hapi Htool].
  split; [exact deck10_reachable|]. split; [exact Hapi|].
  apply (Htool 3%Z); [reflexivity|split; [lia|vm_compute; discriminate]
                      |reflexivity|discriminate].
Defined.

(** ** The slide sidebar *)

(** X13. A click on a sidebar entry whose page is an integer up to 2^53
    in magnitude, NaN or infinite does to the store exactly what
    [goToPage] called with the entry's page number does (the number
    survives its way through the [data-page] attribute and [parseInt]),
    and leaves the sidebar closed. So on a reachable store a click on the
    entry of a page between 1 and the page count makes that page the
    current one. *)
Theorem sidebar_click (this : SlideSidebar.t) (stateManager : StateManager.t)
    (entry : SlideSidebar.slide)
    (Hprint : exact_digits (SlideSidebar.page entry)) :
  let goto :=
    NavigationController.goToPage stateManager (VNum (SlideSidebar.page entry)) in
  SlideSidebar.click this stateManager entry
  = (SlideSidebar.close this, goto.1.2, goto.2) /\
  SlideSidebar.isOpen (SlideSidebar.click this stateManager entry).1.1 = false /\
  (forall n : Z,
      reachable stateManager ->
      SlideSidebar.page entry = Int n ->
      (1 <= n)%Z ->
      num_le (Int n) (StateManager.getTotalPages stateManager) = true ->
      StateManager.getCurrentPage (SlideSidebar.click this stateManager entry).1.2
      = Int n).
Proof.
  intros goto.
  assert (SlideSidebar.click this stateManager entry
          = (SlideSidebar.close this, goto.1.2, goto.2)) as Hclick.
  { unfold SlideSidebar.click, SlideSidebar.data_page, goto.
    rewrite parseInt_number_string by exact Hprint.
    destruct (SlideSidebar.page entry) as [ |neg|z] eqn:Hpage.
    - destruct (NavigationController.goToPage stateManager (VNum NaN)) as [[? ?] ?].
      reflexivity.
    - reflexivity.
    - destruct (NavigationController.goToPage stateManager (VNum (Int z)))
        as [[? ?] ?]. reflexivity. }
  split; [exact Hclick|]. rewrite Hclick. split; [reflexivity|].
  intros n Hreach Hpage Hlow Hhigh. cbn [fst snd]. unfold goto. rewrite Hpage.
  unfold NavigationController.goToPage.
  destruct (reachable_current stateManager Hreach) as (c & Hc & _ & _).
  destruct (decide (n = c)) as [->|Hne].
  - rewrite setCurrentPage_Int, Hc. cbn [num_eq]. rewrite Z.eqb_refl.
    destruct ((c <? 1)%Z || num_gt (Int c) (StateManager._totalPages stateManager));
      exact Hc.
  - rewrite setCurrentPage_turn; [reflexivity|assumption..|].
    rewrite Hc. congruence.
Qed.

Lemma sidebar_click_witness :
  reachable deck10 /\
  StateManager.getCurrentPage
    (SlideSidebar.click {| SlideSidebar.isOpen := true; SlideSidebar.hideTimeout := None |}
       deck10
       {| SlideSidebar.page := Int 4; SlideSidebar.title := u "Results" |}).1.2
  = Int 4.
Proof.
  split; [exact deck10_reachable|].
  assert (exact_digits (Int 4)) as Hprint by (vm_compute; discriminate).
  apply (proj2 (proj2 (sidebar_click
                         {| SlideSidebar.isOpen := true;
                            SlideSidebar.hideTimeout := None |}
                         deck10
                         {| SlideSidebar.page := Int 4;
                            SlideSidebar.title := u "Results" |} Hprint)) 4%Z);
    [exact deck10_reachable|reflexivity|lia|reflexivity].
Defined.

(** X14. The entry that [_updateActiveSlide()] highlights is an entry of
    the list whose page is the current page, the first such; no entry is
    highlighted only when no entry of the list has the current page. *)
Theorem active_slide_is_current (slides : list SlideSidebar.slide)
    (stateManager : StateManager.t) :
  match SlideSidebar._updateActiveSlide slides stateManager with
  | Some entry =>
      exists before after,
        slides = before ++ entry :: after /\
        SlideSidebar.page entry = StateManager.getCurrentPage stateManager /\
        forall other, In other before ->
                      SlideSidebar.page other <> StateManager.getCurrentPage stateManager
  | None =>
      forall entry, In entry slides ->
                    SlideSidebar.page entry <> StateManager.getCurrentPage stateManager
  end.
Proof.
  unfold SlideSidebar._updateActiveSlide, SlideSidebar.data_page.
  set (current := StateManager.getCurrentPage stateManager).
  assert (forall entry,
             str_eqb (Number_toString (SlideSidebar.page entry))
               (Number_toString current) = true
             <-> SlideSidebar.page entry = current) as Htest.
  { intros entry. unfold str_eqb. rewrite bool_decide_eq_true.
    split; [apply Number_toString_inj|intros ->; reflexivity]. }
  induction slides as [|x slides IH]; cbn [List.find].
  - intros entry [].
  - destruct (str_eqb (Number_toString (SlideSidebar.page x))
                (Number_toString current)) eqn:Hx.
    + exists [], slides. split; [reflexivity|]. split; [apply Htest; exact Hx|].
      intros other [].
    + assert (SlideSidebar.page x <> current) as Hne.
      { intros Heq. apply Htest in Heq. congruence. }
      destruct (List.find _ slides) as [entry|].
      * destruct IH as (before & after & -> & Hpage & Hbefore).
        exists (x :: before), after. split; [reflexivity|]. split; [exact Hpage|].
        intros other [<-|Hin]; auto.
      * intros entry [<-|Hin]; auto.
Qed.

(** ** Text extraction *)



(** ** Trimming *)

Section TrimEdgeFacts.

Lemma has_text_blank (s : jsstring) :
  has_text s = false <-> forallb is_whitespace s = true.
Proof.
  unfold has_text. induction s as [|c s IH]; [tauto|]. simpl.
  destruct (is_whitespace c); simpl; [exact IH|]. split; discriminate.
Qed.

Lemma has_text_rev (s : jsstring) : has_text (rev s) = has_text s.
Proof.
  unfold has_text. set (f := fun c => negb (is_whitespace c)).
  destruct (existsb f s) eqn:Hs.
  - apply existsb_exists in Hs as (c & Hin & Hc). apply existsb_exists.
    exists c. split; [|exact Hc]. apply in_rev. rewrite rev_involutive. exact Hin.
  - destruct (existsb f (rev s)) eqn:Hr; [|reflexivity].
    apply existsb_exists in Hr as (c & Hin & Hc). apply in_rev in Hin.
    assert (existsb f s = true) as Habs by (apply existsb_exists; eauto).
    congruence.
Qed.

Lemma trim_start_head (s : jsstring) :
  match trim_start s with [] => True | c :: _ => is_whitespace c = false end.
Proof.
  induction s as [|c s IH]; [exact I|]. cbn [trim_start].
  destruct (is_whitespace c) eqn:Hc; [exact IH|exact Hc].
Qed.

Lemma trim_start_has_text (s : jsstring) : has_text (trim_start s) = has_text s.
Proof.
  induction s as [|c s IH]; [reflexivity|]. cbn [trim_start].
  destruct (is_whitespace c) eqn:Hc; [|reflexivity].
  rewrite IH. unfold has_text. simpl. rewrite Hc. reflexivity.
Qed.

(** Stripping the start of a string that ends on text leaves it ending
    on text. *)
Lemma trim_start_last (s : jsstring) :
  match rev s with [] => True | c :: _ => is_whitespace c = false end ->
  match rev (trim_start s) with [] => True | c :: _ => is_whitespace c = false end.
Proof.
  induction s as [|c s IH]; [auto|]. cbn [trim_start].
  destruct (is_whitespace c) eqn:Hc; [|auto]. intros Hlast. apply IH.
  simpl in Hlast. destruct (rev s) as [|d r]; [|exact Hlast].
  simpl in Hlast. congruence.
Qed.

Lemma trim_has_text (s : jsstring) : has_text (trim s) = has_text s.
Proof.
  unfold trim, trim_end.
  rewrite has_text_rev, trim_start_has_text, has_text_rev, trim_start_has_text.
  reflexivity.
Qed.

(** What [trim] returns neither starts nor ends with white space. *)
Lemma trim_trimmed (s : jsstring) : trimmed (trim s).
Proof.
  unfold trimmed, trim, trim_end. split.
  - pose proof (trim_start_last (rev (trim_start s))) as Hlast.
    rewrite rev_involutive in Hlast. apply Hlast. apply trim_start_head.
  - rewrite rev_involutive. apply trim_start_head.
Qed.

Lemma trim_text_nonempty (s : jsstring) : has_text s = true -> trim s <> [].
Proof.
  intros Htext Hempty. rewrite <- trim_has_text, Hempty in Htext. discriminate.
Qed.

Lemma trim_start_fixed (s : jsstring) :
  match s with [] => True | c :: _ => is_whitespace c = false end -> trim_start s = s.
Proof. destruct s as [|c s]; [reflexivity|]. simpl. intros ->. reflexivity. Qed.

(** Trimming a trimmed string changes nothing. *)
Lemma trim_fixed (s : jsstring) : trimmed s -> trim s = s.
Proof.
  intros [Hhead Hlast]. unfold trim, trim_end.
  rewrite (trim_start_fixed s Hhead), (trim_start_fixed (rev s) Hlast).
  apply rev_involutive.
Qed.

End TrimEdgeFacts.

(** ** Sending a text *)

Section SendFacts.
Import TranscriptManager.

Lemma display_user this c stamp :
  display (_addToHistory this (u "user") c stamp) (u "user") c stamp
  = with_user_text this c stamp [].
Proof. reflexivity. Qed.

Lemma display_notice this c stamp notices content later :
  display (with_user_text this c stamp notices) (u "system") content later
  = with_user_text this c stamp (notices ++ [system_notice content later]).
Proof.
  unfold display, with_user_text, ChatInterface.addMessage. simpl.
  rewrite <- app_assoc. reflexivity.
Qed.

(** The ways [sendTextMessage] can go. *)
Lemma sendTextMessage_cases this text now later :
  (sendTextMessage this text now later = (this, [], Return tt) /\
   forall s, text = VStr s -> has_text s = false) \/
  exists s notices calls settled,
    text = VStr s /\ has_text s = true /\
    sendTextMessage this text now later
    = (with_user_text this (trim s) (Date_now now) notices, calls, settled) /\
    match _conversation this with
    | None =>
        notices = [system_notice (u "Voice conversation not connected") (Date_now later)]
        /\ calls = [] /\ settled = Return tt
    | Some conversation =>
        match probe conversation send_methods with
        | None =>
            notices = [system_notice
                         (u "Text input is for display only - voice conversation required for agent interaction")
                         (Date_now later)]
            /\ calls = [] /\ settled = Return tt
        | Some (name, f) =>
            calls = [Call name (trim s)] /\
            match f (trim s) with
            | None => notices = [] /\ settled = Return tt
            | Some error =>
                match Get error (u "message") with
                | Return m =>
                    notices = [system_notice (u "Error sending message: " ++ ToString m)
                                 (Date_now later)]
                    /\ settled = Return tt
                | Throw e => notices = [] /\ settled = Throw e
                end
            end
        end
    end.
Proof.
  destruct text as [ | |b|n|s|elems|props];
    try (left; split; [|discriminate]; unfold sendTextMessage;
         destruct (negb (truthy _) || negb (str_eqb (typeof _) (u "string")));
         reflexivity).
  destruct (has_text s) eqn:Htext.
  - right. pose proof (trim_text_nonempty s Htext) as Hne.
    assert (s <> []) as Hs by (intros ->; discriminate).
    unfold sendTextMessage.
    assert (negb (truthy (VStr s)) || negb (str_eqb (typeof (VStr s)) (u "string"))
            = false) as ->.
    { cbn [truthy typeof]. change (str_eqb (u "string") (u "string")) with true.
      rewrite bool_decide_eq_false_2 by exact Hs. reflexivity. }
    destruct (trim s) as [|c0 c] eqn:Htrim; [congruence|].
    rewrite display_user.
    change (_conversation (with_user_text this (c0 :: c) (Date_now now) []))
      with (_conversation this).
    destruct (_conversation this) as [conversation|].
    + destruct (probe conversation send_methods) as [[name f]|].
      * destruct (f (c0 :: c)) as [error|] eqn:Hf.
        -- destruct (Get error (u "message")) as [m|e] eqn:Hm.
           ++ rewrite display_notice. eexists s, _, _, _.
              rewrite Htrim, Hf, Hm. repeat split; solve [reflexivity|exact Htext].
           ++ eexists s, [], _, _. rewrite Htrim, Hf, Hm. repeat split; solve [reflexivity|exact Htext].
        -- eexists s, [], _, _. rewrite Htrim, Hf. repeat split; solve [reflexivity|exact Htext].
      * rewrite display_notice. eexists s, _, _, _. rewrite Htrim.
        repeat split; solve [reflexivity|exact Htext].
    + rewrite display_notice. eexists s, _, _, _. rewrite Htrim.
      repeat split; solve [reflexivity|exact Htext].
  - left. split; [|intros s' [= <-]; exact Htext].
    apply has_text_blank in Htext. unfold sendTextMessage.
    rewrite trim_blank by exact Htext.
    destruct (negb (truthy (VStr s)) || negb (str_eqb (typeof (VStr s)) (u "string")));
      reflexivity.
Qed.

End SendFacts.

Section TranscriptShapeFacts.
Import TranscriptManager.

(** What [sendTextMessage] leaves behind: nothing, or the user's trimmed
    text in the history and on the display, followed on the display by at
    most one system notice. *)
Lemma sendTextMessage_shape this text now later :
  (sendTextMessage this text now later).1.1 = this \/
  exists s notices,
    text = VStr s /\ has_text s = true /\
    (sendTextMessage this text now later).1.1
    = with_user_text this (trim s) (Date_now now) notices /\
    (length notices <= 1)%nat /\ Forall is_notice notices.
Proof.
  destruct (sendTextMessage_cases this text now later)
    as [[-> _]|(s & notices & calls & settled & -> & Htext & -> & Hrest)];
    [left; reflexivity|right].
  exists s, notices. split; [reflexivity|]. split; [exact Htext|].
  split; [reflexivity|].
  destruct (_conversation this) as [conversation|].
  - destruct (probe conversation send_methods) as [[name f]|].
    + destruct Hrest as [_ Hrest]. destruct (f (trim s)) as [error|].
      * destruct (Get error (u "message")); destruct Hrest as [-> _]; simpl;
          split; auto; repeat constructor.
      * destruct Hrest as [-> _]. simpl. split; auto.
    + destruct Hrest as [-> _]. simpl. split; auto. repeat constructor.
  - destruct Hrest as [-> _]. simpl. split; auto. repeat constructor.
Qed.





End TranscriptShapeFacts.

(** X16. [sendTextMessage] given a string with some text in it records
    it whatever becomes of the delivery: the history gains exactly one
    entry, of role user, whose content is the text trimmed (not empty,
    with no white space at either end); the display gains that message
    and after it at most one message, a system notice; the conversation
    bound to the manager is not changed. *)
Theorem sendTextMessage_records (this : TranscriptManager.t) (s : jsstring)
    (now later : N) (Htext : has_text s = true) :
  let sent := (TranscriptManager.sendTextMessage this (VStr s) now later).1.1 in
  TranscriptManager._history sent
  = TranscriptManager._history this
    ++ [{| TranscriptManager.role := u "user";
           TranscriptManager.content := trim s;
           TranscriptManager.timestamp := Date_now now |}] /\
  trim s <> [] /\ trimmed (trim s) /\
  TranscriptManager._conversation sent = TranscriptManager._conversation this /\
  exists notices,
    ChatInterface._messages (TranscriptManager._chatInterface sent)
    = ChatInterface._messages (TranscriptManager._chatInterface this)
      ++ {| ChatInterface.role := u "user";
            ChatInterface.content := ChatInterface._escapeHtml (trim s);
            ChatInterface.timestamp := Date_now now |} :: notices /\
    (length notices <= 1)%nat /\
    Forall (fun m => ChatInterface.role m = u "system") notices.
Proof.
  intros sent. unfold sent.
  destruct (sendTextMessage_cases this (VStr s) now later)
    as [[_ Hblank]|(s' & notices & calls & settled & [= <-] & _ & Hsent & _)].
  { rewrite (Hblank s eq_refl) in Htext. discriminate. }
  destruct (sendTextMessage_shape this (VStr s) now later)
    as [Hsame|(s' & notices' & [= <-] & _ & Hshape & Hlen & Hall)].
  { rewrite Hsent in Hsame. cbn [fst] in Hsame.
    apply (f_equal (fun m => length (TranscriptManager._history m))) in Hsame.
    simpl in Hsame. rewrite length_app in Hsame. simpl in Hsame. lia. }
  rewrite Hshape. simpl.
  split; [reflexivity|]. split; [apply trim_text_nonempty; exact Htext|].
  split; [apply trim_trimmed|]. split; [reflexivity|].
  exists notices'. split; [reflexivity|]. split; [exact Hlen|exact Hall].
Qed.

Lemma sendTextMessage_records_witness :
  TranscriptManager._history
    (TranscriptManager.sendTextMessage (fresh_manager None) (VStr (u " hi ")) 7%N 8%N).1.1
  = [{| TranscriptManager.role := u "user";
        TranscriptManager.content := u "hi";
        TranscriptManager.timestamp := Date_now 7%N |}].
Proof.
  exact (proj1 (sendTextMessage_records (fresh_manager None) (u " hi ") 7%N 8%N
                  eq_refl)).
Defined.



(** ** The transcript as a whole *)

Section TranscriptInvariantFacts.
Import TranscriptManager.







End TranscriptInvariantFacts.



(** ** Escaping *)

Section EscapeFacts.

Lemma escapeHtml_head (c : N) (s : jsstring) :
  c <> 38%N -> c <> 60%N -> c <> 62%N -> c <> 160%N ->
  ChatInterface._escapeHtml (c :: s) = c :: ChatInterface._escapeHtml s.
Proof.
  intros H38 H60 H62 H160. unfold ChatInterface._escapeHtml. cbn [flat_map].
  destruct c as [|p]; [reflexivity|].
  do 8 (try (destruct p as [p|p|]; try reflexivity)); congruence.
Qed.

Lemma special_or_plain (c : N) :
  c = 38%N \/ c = 60%N \/ c = 62%N \/ c = 160%N \/
  (c <> 38%N /\ c <> 60%N /\ c <> 62%N /\ c <> 160%N).
Proof. lia. Qed.

(** The escaped text, unit by unit. *)
Lemma escapeHtml_cons (c : N) (s : jsstring) :
  ChatInterface._escapeHtml (c :: s)
  = (if N.eqb c 38 then u "&amp;"
     else if N.eqb c 60 then u "&lt;"
     else if N.eqb c 62 then u "&gt;"
     else if N.eqb c 160 then u "&nbsp;"
     else [c]) ++ ChatInterface._escapeHtml s.
Proof.
  destruct (special_or_plain c) as [->|[->|[->|[->|(H38 & H60 & H62 & H160)]]]];
    try reflexivity.
  rewrite escapeHtml_head by assumption.
  rewrite (proj2 (N.eqb_neq c 38) H38), (proj2 (N.eqb_neq c 60) H60),
    (proj2 (N.eqb_neq c 62) H62), (proj2 (N.eqb_neq c 160) H160).
  reflexivity.
Qed.

Lemma escapeHtml_amp (s : jsstring) :
  ChatInterface._escapeHtml (38%N :: s)
  = [38; 97; 109; 112; 59]%N ++ ChatInterface._escapeHtml s.
Proof. reflexivity. Qed.

Lemma escapeHtml_lt (s : jsstring) :
  ChatInterface._escapeHtml (60%N :: s)
  = [38; 108; 116; 59]%N ++ ChatInterface._escapeHtml s.
Proof. reflexivity. Qed.

Lemma escapeHtml_gt (s : jsstring) :
  ChatInterface._escapeHtml (62%N :: s)
  = [38; 103; 116; 59]%N ++ ChatInterface._escapeHtml s.
Proof. reflexivity. Qed.

Lemma escapeHtml_nbsp (s : jsstring) :
  ChatInterface._escapeHtml (160%N :: s)
  = [38; 110; 98; 115; 112; 59]%N ++ ChatInterface._escapeHtml s.
Proof. reflexivity. Qed.

End EscapeFacts.

(** X19. What [_escapeHtml] returns holds no [<] and no [>]: a message
    content cannot open or close a tag in the panel; and a text without
    [&], [<], [>] and no-break space is returned as it is. *)
Theorem escapeHtml_no_markup (text : jsstring) :
  Forall (fun c => c <> 60%N /\ c <> 62%N) (ChatInterface._escapeHtml text) /\
  (Forall (fun c => c <> 38%N /\ c <> 60%N /\ c <> 62%N /\ c <> 160%N) text ->
   ChatInterface._escapeHtml text = text).
Proof.
  split.
  - induction text as [|c text IH]; [constructor|].
    rewrite escapeHtml_cons. apply Forall_app. split; [|exact IH].
    destruct (special_or_plain c) as [->|[->|[->|[->|(H38 & H60 & H62 & H160)]]]];
      try (vm_compute; repeat constructor; discriminate).
    rewrite (proj2 (N.eqb_neq c 38) H38), (proj2 (N.eqb_neq c 60) H60),
      (proj2 (N.eqb_neq c 62) H62), (proj2 (N.eqb_neq c 160) H160).
    constructor; [split; assumption|constructor].
  - induction 1 as [|c text (H38 & H60 & H62 & H160) _ IH]; [reflexivity|].
    rewrite escapeHtml_head by assumption. rewrite IH. reflexivity.
Qed.

Lemma escapeHtml_no_markup_witness :
  ChatInterface._escapeHtml (u "slide 3") = u "slide 3".
Proof.
  apply (proj2 (escapeHtml_no_markup (u "slide 3"))).
  vm_compute. repeat constructor; discriminate.
Defined.

(** X20. [_escapeHtml] is one-to-one: two different texts are never shown
    as the same content. *)
Theorem escapeHtml_injective (a b : jsstring) :
  ChatInterface._escapeHtml a = ChatInterface._escapeHtml b -> a = b.
Proof.
  revert b. induction a as [|c a IH]; intros [|d b] Heq.
  - reflexivity.
  - exfalso. rewrite escapeHtml_cons in Heq.
    destruct (N.eqb d 38), (N.eqb d 60), (N.eqb d 62), (N.eqb d 160); discriminate.
  - exfalso. rewrite escapeHtml_cons in Heq.
    destruct (N.eqb c 38), (N.eqb c 60), (N.eqb c 62), (N.eqb c 160); discriminate.
  - destruct (special_or_plain c) as [->|[->|[->|[->|(C38 & C60 & C62 & C160)]]]];
      destruct (special_or_plain d) as [->|[->|[->|[->|(D38 & D60 & D62 & D160)]]]];
      rewrite ?escapeHtml_amp, ?escapeHtml_lt, ?escapeHtml_gt, ?escapeHtml_nbsp in Heq;
      try rewrite (escapeHtml_head c) in Heq by assumption;
      try rewrite (escapeHtml_head d) in Heq by assumption;
      try discriminate Heq;
      injection Heq as Heq; try congruence; f_equal; try congruence; apply IH;
      congruence.
Qed.

Lemma escapeHtml_injective_witness :
  u "a&lt;b" = u "a&lt;b".
Proof.
  apply (escapeHtml_injective (u "a&lt;b") (u "a&lt;b")). reflexivity.
Defined.

(** ** Submitting a text in the chat panel *)

(** X21. The [onSubmit] callback of the assembly. Without a bound
    conversation the text, whatever it is, is neither recorded nor sent:
    the history is unchanged and the display gets the one notice "Voice
    session not active. Please start a voice conversation first.". With or
    without one, the notice "Voice conversation not connected" of
    [sendTextMessage] is never among the messages the callback adds. *)
Theorem onSubmit_outcome (this : TranscriptManager.t) (text : JsVal) (now later : N) :
  let result := Main.onSubmit this text now later in
  (TranscriptManager._conversation this = None ->
   TranscriptManager._history result.1.1 = TranscriptManager._history this /\
   result.1.2 = [] /\
   ChatInterface._messages (TranscriptManager._chatInterface result.1.1)
   = ChatInterface._messages (TranscriptManager._chatInterface this)
     ++ [system_notice
           (u "Voice session not active. Please start a voice conversation first.")
           (Date_now now)]) /\
  exists added,
    ChatInterface._messages (TranscriptManager._chatInterface result.1.1)
    = ChatInterface._messages (TranscriptManager._chatInterface this) ++ added /\
    Forall (fun m => ~ (is_notice m /\
                        ChatInterface.content m
                        = ChatInterface._escapeHtml (u "Voice conversation not connected")))
      added.
Proof.
  cbv zeta. unfold Main.onSubmit.
  destruct (TranscriptManager._conversation this) as [conversation|] eqn:Hconv.
  - split; [discriminate|].
    destruct (sendTextMessage_cases this text now later)
      as [[-> _]|(s & notices & calls & settled & -> & Htext & -> & Hcases)].
    + exists []. split; [symmetry; apply app_nil_r|constructor].
    + eexists. split; [reflexivity|].
      constructor.
      { intros [Hrole _]. unfold is_notice in Hrole. cbn in Hrole.
        vm_compute in Hrole. discriminate Hrole. }
      rewrite Hconv in Hcases.
      destruct (TranscriptManager.probe conversation TranscriptManager.send_methods) as [[name f]|].
      * destruct Hcases as [_ Hcases].
        destruct (f (trim s)) as [error|].
        -- destruct (Get error (u "message")) as [m|e].
           ++ destruct Hcases as [-> _]. constructor; [|constructor].
              intros [_ Hcontent]. unfold system_notice in Hcontent.
              cbn [ChatInterface.content] in Hcontent.
              change (u "Error sending message: " ++ ToString m)
                with (69%N :: (u "rror sending message: " ++ ToString m)) in Hcontent.
              rewrite escapeHtml_head in Hcontent by discriminate.
              vm_compute (ChatInterface._escapeHtml (u "Voice conversation not connected"))
                in Hcontent.
              discriminate Hcontent.
           ++ destruct Hcases as [-> _]. constructor.
        -- destruct Hcases as [-> _]. constructor.
      * destruct Hcases as [-> _]. constructor; [|constructor].
        intros [_ Hcontent]. vm_compute in Hcontent. discriminate Hcontent.
  - split.
    + intros _. repeat split.
    + eexists. split; [reflexivity|]. constructor; [|constructor].
      intros [_ Hcontent]. vm_compute in Hcontent. discriminate Hcontent.
Qed.

Lemma onSubmit_outcome_witness :
  TranscriptManager._history
    (Main.onSubmit (fresh_manager None) (VStr (u "next slide")) 7%N 8%N).1.1 = [] /\
  List.map ChatInterface.content
    (ChatInterface._messages
       (TranscriptManager._chatInterface
          (Main.onSubmit (fresh_manager None) (VStr (u "next slide")) 7%N 8%N).1.1))
  = [u "Voice session not active. Please start a voice conversation first."].
Proof.
  destruct (proj1 (onSubmit_outcome (fresh_manager None) (VStr (u "next slide")) 7%N 8%N)
              eq_refl) as (Hhistory & _ & Hmessages).
  split; [exact Hhistory|]. rewrite Hmessages. reflexivity.
Defined.

(** ** The time of a message *)

Section FormatTimeFacts.

Lemma date_readings_complete (date : option (Z * Z)) :
  date_reading date -> In date date_readings.
Proof.
  destruct date as [[h m]|]; [|intros _; left; reflexivity].
  intros [Hh Hm]. right. apply in_flat_map. exists (Z.to_nat h). split.
  - apply in_seq. lia.
  - apply in_map_iff. exists (Z.to_nat m). split.
    + rewrite !Z2Nat.id by lia. reflexivity.
    + apply in_seq. lia.
Qed.

Lemma printed_apart_spec (dates : list (option (Z * Z))) (a b : option (Z * Z)) :
  printed_apart dates = true -> In a dates -> In b dates ->
  ChatInterface._formatTime a = ChatInterface._formatTime b -> a = b.
Proof.
  unfold printed_apart. cbv zeta. intros Hall Ha Hb Heq.
  rewrite forallb_forall in Hall.
  specialize (Hall (a, ChatInterface._formatTime a)
                (in_map (fun d => (d, ChatInterface._formatTime d)) dates a Ha)).
  rewrite forallb_forall in Hall.
  specialize (Hall (b, ChatInterface._formatTime b)
                (in_map (fun d => (d, ChatInterface._formatTime d)) dates b Hb)).
  cbn [fst snd] in Hall. rewrite Heq in Hall.
  unfold str_eqb in Hall. rewrite bool_decide_eq_true_2 in Hall by reflexivity.
  cbn [implb] in Hall.
  apply bool_decide_eq_true_1 in Hall. exact Hall.
Qed.

Lemma date_readings_printed_apart : printed_apart date_readings = true.
Proof. vm_compute. reflexivity. Qed.

End FormatTimeFacts.

(** X22. [_formatTime] tells the times of day apart: two dates with
    different hours or minutes are never printed alike, and only a value
    that is no valid date is printed as the empty string. *)
Theorem formatTime_injective (a b : option (Z * Z)) :
  date_reading a -> date_reading b ->
  ChatInterface._formatTime a = ChatInterface._formatTime b -> a = b.
Proof.
  intros Ha Hb. apply (printed_apart_spec date_readings).
  - exact date_readings_printed_apart.
  - apply date_readings_complete. exact Ha.
  - apply date_readings_complete. exact Hb.
Qed.

Lemma formatTime_injective_witness :
  ChatInterface._formatTime (Some (0, 5)%Z) = u "12:05 AM" /\
  Some (0, 5)%Z = Some (0, 5)%Z.
Proof.
  split; [reflexivity|].
  apply (formatTime_injective (Some (0, 5)%Z) (Some (0, 5)%Z)).
  - unfold date_reading, time_of_day. lia.
  - unfold date_reading, time_of_day. lia.
  - reflexivity.
Defined.

(** ** Showing and hiding the chat panel *)

(** X23. [toggle()] of the chat panel flips the visibility and tells the
    listeners of "chatToggled", and only them: each is called exactly
    once, in registration order, with [{visible: v}] for the new
    visibility [v]; a function that is not registered for "chatToggled"
    (one that listens to "pageChanged" only, say) is not called.
    A second [show()] and a second [hide()] call nothing. *)
Theorem chat_toggle_notifies (stateManager : StateManager.t)
    (Hreach : reachable stateManager) (visible : bool) :
  let toggled := ChatInterface.toggle visible (Some stateManager) in
  toggled.1 = negb visible /\
  invocations toggled.2
  = List.map (fun cb => (fn_ref cb, VObj [(u "visible", VBool (negb visible))],
                         StateManager._currentPage stateManager))
      (listeners_of stateManager (u "chatToggled")) /\
  (forall cb, In cb (listeners_of stateManager (u "chatToggled")) ->
              times_invoked (fn_ref cb) toggled.2 = 1) /\
  (forall ref, ~ In ref (List.map fn_ref (listeners_of stateManager (u "chatToggled"))) ->
               times_invoked ref toggled.2 = 0) /\
  ChatInterface.show (ChatInterface.show visible (Some stateManager)).1 (Some stateManager)
  = (true, []) /\
  ChatInterface.hide (ChatInterface.hide visible (Some stateManager)).1 (Some stateManager)
  = (false, []).
Proof.
  cbv zeta.
  assert (ChatInterface.toggle visible (Some stateManager)
          = (negb visible,
             StateManager.forEach_listener stateManager
               (ChatInterface.chatToggled_data (negb visible))
               (listeners_of stateManager (u "chatToggled")))) as Htoggle.
  { unfold ChatInterface.toggle, ChatInterface.show, ChatInterface.hide.
    destruct visible; cbn [negb]; rewrite emit_listeners_of; reflexivity. }
  rewrite Htoggle. cbn [fst snd].
  split; [reflexivity|]. split; [apply invocations_forEach|]. split; [|split].
  - intros cb Hin. apply forEach_calls_once; [|exact Hin].
    destruct (reachable_well_formed stateManager Hreach) as [_ Hsets].
    unfold listeners_of.
    destruct (StateManager._listeners stateManager !! u "chatToggled") as [set|] eqn:Hset.
    + exact (Hsets _ _ Hset).
    + constructor.
  - intros ref Hnot. unfold times_invoked. rewrite invocations_forEach.
    rewrite count_calls_notin by exact Hnot. reflexivity.
  - unfold ChatInterface.show, ChatInterface.hide.
    destruct visible; split; reflexivity.
Qed.

Lemma chat_toggle_notifies_witness :
  let stateManager :=
    subscribe (subscribe deck10 (u "chatToggled") (quiet 1)) (u "pageChanged") (quiet 2) in
  reachable stateManager /\
  invocations (ChatInterface.toggle false (Some stateManager)).2
  = [(1, VObj [(u "visible", VBool true)], Int 1)] /\
  times_invoked 2 (ChatInterface.toggle false (Some stateManager)).2 = 0.
Proof.
  cbv zeta.
  assert (reachable
            (subscribe (subscribe deck10 (u "chatToggled") (quiet 1))
               (u "pageChanged") (quiet 2))) as Hreach
    by (repeat apply subscribe_reachable; exact deck10_reachable).
  destruct (chat_toggle_notifies _ Hreach false) as (_ & Hcalls & _ & Hnone & _).
  split; [exact Hreach|]. split; [exact Hcalls|].
  apply Hnone. vm_compute. intros [H|[]]. discriminate H.
Defined.

(** ** Exposing the manual API *)

(** X24. The [exposed] flag of the API controller and the presence of
    [window.pdfController] stay in step under [expose()] and [cleanup()]:
    started in step, after any sequence of calls both are what the last
    call asks for (present after [expose()], absent after [cleanup()]).
    Out of step, with the flag set and the global absent, no number of
    [expose()] calls brings the global back. *)
Theorem api_exposed_in_step (calls : list bool) (this : APIController.t)
    (window_pdfController : bool) :
  APIController.exposed this = window_pdfController ->
  api_run calls this window_pdfController
  = ({| APIController.exposed := List.last calls window_pdfController |},
     List.last calls window_pdfController) /\
  forall k, api_run (repeat true k) {| APIController.exposed := true |} false
            = ({| APIController.exposed := true |}, false).
Proof.
  intros Hstep. split.
  - revert this window_pdfController Hstep.
    induction calls as [|call calls IH]; intros [e] w Hstep; cbn in Hstep; subst e.
    + reflexivity.
    + assert (List.last (call :: calls) w = List.last calls call) as ->
        by (clear; revert call w; induction calls as [|c calls IH]; intros call w;
            [reflexivity|];
            change (List.last (call :: c :: calls) w) with (List.last (c :: calls) w);
            rewrite (IH c w), (IH c call); reflexivity).
      cbn [api_run]. unfold APIController.expose, APIController.cleanup.
      cbn [APIController.exposed].
      destruct call, w; apply IH; reflexivity.
  - induction k as [|k IH]; [reflexivity|exact IH].
Qed.

Lemma api_exposed_in_step_witness :
  api_run [true; true; false; true] {| APIController.exposed := false |} false
  = ({| APIController.exposed := true |}, true).
Proof.
  apply (proj1 (api_exposed_in_step [true; true; false; true]
                  {| APIController.exposed := false |} false eq_refl)).
Defined.

(** ** Beyond 2^53 *)

Section FarNumbers.

(** Ties go to the even significand, and 2^1024 is out of range. *)
Example to_double_tie :
  to_double (2 ^ 53 + 1) = Int (2 ^ 53) /\ to_double (2 ^ 53 + 3) = Int (2 ^ 53 + 4) /\
  to_double (2 ^ 1024 - 2 ^ 970 - 1) = Int (2 ^ 1024 - 2 ^ 971) /\
  to_double (2 ^ 1024 - 2 ^ 970) = Infinity false.
Proof. repeat split; vm_compute; reflexivity. Qed.

Example parseInt_rounds :
  parseInt (VStr (u "9007199254740993")) = Int 9007199254740992.
Proof. vm_compute. reflexivity. Qed.

Example Number_toString_far :
  Number_toString (Int (10 ^ 21 - 1)) = u "999999999999999999999" /\
  Number_toString (Int (10 ^ 21)) = u "1e+21" /\
  Number_toString (Int (- (12 * 10 ^ 21))) = u "-1.2e+22".
Proof. repeat split; vm_compute; reflexivity. Qed.

(** Given 10^21, the [goToPage] tool reads [1] from ["1e+21"]. *)
Example goToPage_far_argument :
  ClientTools.goToPage (turned_to deck10 5) (VNum (Int (10 ^ 21)))
  = (Return {| success := true;
               message := u "Jumped to page 1 of 10";
               currentPage := Int 1;
               totalPages := Int 10 |},
     turned_to deck10 1, []).
Proof. vm_compute. reflexivity. Qed.

(** So does a click on a sidebar entry of page 10^21, where
    [goToPage(1e21)] refuses. *)
Example sidebar_far_entry :
  let entry := {| SlideSidebar.page := Int (10 ^ 21); SlideSidebar.title := u "Far" |} in
  let sidebar := {| SlideSidebar.isOpen := true; SlideSidebar.hideTimeout := None |} in
  (SlideSidebar.click sidebar (turned_to deck10 5) entry).1.2 = turned_to deck10 1 /\
  NavigationController.goToPage (turned_to deck10 5) (VNum (Int (10 ^ 21)))
  = (false, turned_to deck10 5, []).
Proof. split; vm_compute; reflexivity. Qed.

End FarNumbers.
